(** * UIDAI Insight Engine: the dashboard script [app.py]

    A shallow embedding of the Streamlit dashboard.  The script reads two
    CSV files through pandas, filters the master table by the state chosen
    in the sidebar and renders one of four pages.

    Modelling conventions.
    - A table is the list of its rows, in index order; a row is a record with
      one field per column of the input contract.
    - A cell is an [option]: [None] is the missing value (pandas' NaN, NaT
      for dates).
    - [Count] cells are integers.  pandas reads a Count column without a
      missing cell as int64: its sums wrap around, and they are modelled so.
      A column with a missing cell is read as float64, whose rounding is not
      modelled: what is proved about the value of a sum is proved for tables
      whose master file has no missing Count.  A file without rows gives a
      column that is not numeric ([object]).
    - The numeric cells of the forecast table are only plotted, never
      computed with, so their type [num] is left abstract.
    - Timestamps and the string-to-timestamp parser behind [pd.to_datetime]
      belong to pandas; they are variables of the development.
    - Streamlit calls append elements to the rendered page; an exception
      that is not caught ends the run and is the result of the script.
    - The two loaders are wrapped in [st.cache_data]; one run of the script
      calls each of them once, so the cache is not modelled. *)

From Stdlib Require Import String Ascii List ZArith Lia Bool Arith.
From Stdlib Require Import Permutation Sorted OrdersEx RelationClasses.
Import ListNotations.

Local Open Scope string_scope.
Local Open Scope Z_scope.

Set Implicit Arguments.

(* ================================================================== *)
(** * Exceptions and the page monad *)
(* ================================================================== *)

(** The Python exceptions the script can meet. *)
Inductive exn : Type :=
| FileNotFoundError (path : string)
| KeyError (key : string)
| ValueError (msg : string)
| TypeError (msg : string).

Definition result (A : Type) : Type := (exn + A)%type.

(** A cell of a column: [None] is NaN (or NaT). *)
Definition cell (A : Type) : Type := option A.

Definition isna {A} (c : cell A) : bool :=
  match c with None => true | Some _ => false end.

Definition notna {A} (c : cell A) : bool := negb (isna c).

(** ** Rows of the two tables *)

Module Master.
(** One row of [master_uidai_data_cleaned.csv]; [D] is the type of the
    [date] column: [string] as read, a timestamp once loaded. *)
Record row (D : Type) : Type := mk {
  date : cell D;
  state : cell string;
  district : cell string;
  Type_ : cell string;
  Age_Group : cell string;
  Count : cell Z
}.
Arguments mk {D}.
End Master.

Module Forecast.
(** One row of [forecast_data.csv] as read.  The fields [Date] and [date]
    are meaningful only when the column is listed in the header. *)
Record csv_row (N : Type) : Type := mk_csv {
  Date : cell string;
  date : cell string;
  Actual_Count : cell N;
  Predicted_Count : cell N
}.
Arguments mk_csv {N}.

(** The parsed file: its header and its rows. *)
Record csv (N : Type) : Type := mk_frame {
  columns : list string;
  rows : list (csv_row N)
}.

(** A loaded row: the row as read plus the column [Combined_Date]. *)
Record row (D N : Type) : Type := mk {
  source : csv_row N;
  Combined_Date : cell D
}.
End Forecast.

(** The two files of the working directory; [None] when a file is absent. *)
Record Files (N : Type) : Type := mkFiles {
  master_uidai_data_cleaned_csv : option (list (Master.row string));
  forecast_data_csv : option (Forecast.csv N)
}.

(* ================================================================== *)
(** * The pandas operations the script calls *)
(* ================================================================== *)

Module pd.

(** [series == value], one cell: a missing cell equals nothing. *)
Definition eq (c v : cell string) : bool :=
  match c, v with
  | Some a, Some b => String.eqb a b
  | _, _ => false
  end.

(** [series != value], one cell. *)
Definition ne (c v : cell string) : bool := negb (eq c v).

(** [a.fillna(b)], one cell. *)
Definition fillna {A} (a b : cell A) : cell A :=
  match a with Some _ => a | None => b end.

(** The value of a 64-bit signed integer after an overflow: two's
    complement wrap-around. *)
Definition wrap64 (z : Z) : Z := (z + 2 ^ 63) mod 2 ^ 64 - 2 ^ 63.

(** [Series.sum()] of an int64 column: missing cells are skipped, the empty
    sum is 0, the additions wrap around. *)
Fixpoint sum (s : list (cell Z)) : Z :=
  match s with
  | [] => 0
  | None :: t => sum t
  | Some v :: t => wrap64 (v + sum t)
  end.

(** The type pandas gives a column of integers when it reads the file:
    [object] when the file has no rows, [float64] when a cell is missing,
    [int64] otherwise. *)
Inductive dtype : Type := object | int64 | float64.

Definition column_dtype (s : list (cell Z)) : dtype :=
  match s with
  | [] => object
  | _ :: _ => if forallb notna s then int64 else float64
  end.

(** [Series.unique()]: the distinct cells in order of first appearance;
    the missing value is listed once. *)
Definition cell_same (a b : cell string) : bool :=
  match a, b with
  | Some x, Some y => String.eqb x y
  | None, None => true
  | _, _ => false
  end.

Fixpoint unique_from (seen : list (cell string)) (s : list (cell string))
  : list (cell string) :=
  match s with
  | [] => []
  | c :: t =>
      if existsb (cell_same c) seen then unique_from seen t
      else c :: unique_from (c :: seen) t
  end.

Definition unique (s : list (cell string)) : list (cell string) :=
  unique_from [] s.

Section GroupBy.
Variable K : Type.
Variable compare : K -> K -> comparison.

(** Adds [v] to the group of key [k] in a table of sums kept in
    ascending key order; the addition is that of int64. *)
Fixpoint group_add (k : K) (v : Z) (acc : list (K * Z)) : list (K * Z) :=
  match acc with
  | [] => [(k, v)]
  | (k', s) :: rest =>
      match compare k k' with
      | Lt => (k, v) :: acc
      | Eq => (k', wrap64 (s + v)) :: rest
      | Gt => (k', s) :: group_add k v rest
      end
  end.

Definition group_step (acc : list (K * Z)) (kv : cell K * cell Z)
  : list (K * Z) :=
  match fst kv with
  | None => acc
  | Some k => group_add k (sum [snd kv]) acc
  end.

(** [df.groupby(key)[value].sum()] with the defaults [sort=True] and
    [dropna=True]: rows with a missing key are dropped, the groups come
    out in ascending key order, missing values add nothing. *)
Definition groupby_sum (kvs : list (cell K * cell Z)) : list (K * Z) :=
  fold_left group_step kvs [].

(** [Series.idxmax()]: the label of the first occurrence of the maximum;
    an empty series raises. *)
Definition better (best kv : K * Z) : K * Z :=
  if snd best <? snd kv then kv else best.

Definition idxmax (s : list (K * Z)) : result K :=
  match s with
  | [] => inl (ValueError "attempt to get argmax of an empty sequence")
  | kv :: t => inr (fst (fold_left better t kv))
  end.

(** [Series.nlargest(n)] first checks the type of the series: a series
    that is not numeric is refused. *)
Definition nlargest_check (d : dtype) : result unit :=
  match d with
  | object =>
      inl (TypeError "Cannot use method 'nlargest' with dtype object")
  | _ => inr tt
  end.

(** [Series.nlargest(n)] of a numeric series, with the default
    [keep='first']: the [n] largest values in descending order, equal values
    in their order of appearance. *)
Fixpoint insert_desc (kv : K * Z) (l : list (K * Z)) : list (K * Z) :=
  match l with
  | [] => [kv]
  | h :: t => if snd kv <? snd h then h :: insert_desc kv t else kv :: l
  end.

Definition sort_desc (s : list (K * Z)) : list (K * Z) :=
  fold_right insert_desc [] s.

Definition nlargest (n : nat) (s : list (K * Z)) : list (K * Z) :=
  firstn n (sort_desc s).
End GroupBy.

(** Order of the keys of a two-column [groupby]: lexicographic. *)
Definition compare_pair {A B} (ca : A -> A -> comparison)
    (cb : B -> B -> comparison) (x y : A * B) : comparison :=
  match ca (fst x) (fst y) with
  | Eq => cb (snd x) (snd y)
  | c => c
  end.

(** A two-column key is missing as soon as one of its parts is. *)
Definition key2 {A B} (a : cell A) (b : cell B) : cell (A * B) :=
  match a, b with
  | Some x, Some y => Some (x, y)
  | _, _ => None
  end.

(** [pd.to_datetime(series)]: every present cell is parsed, a missing cell
    becomes NaT, a cell that does not parse raises. *)
Section ToDatetime.
Variable D : Type.
Variable parse : string -> option D.

Definition to_datetime_cell (c : cell string) : result (cell D) :=
  match c with
  | None => inr None
  | Some s =>
      match parse s with
      | Some d => inr (Some d)
      | None => inl (ValueError "Unknown datetime string format")
      end
  end.

Fixpoint to_datetime (s : list (cell string)) : result (list (cell D)) :=
  match s with
  | [] => inr []
  | c :: t =>
      match to_datetime_cell c with
      | inl e => inl e
      | inr d =>
          match to_datetime t with
          | inl e => inl e
          | inr ds => inr (d :: ds)
          end
      end
  end.
End ToDatetime.

(** [pd.read_csv(path)]: the parsed file, or [FileNotFoundError]. *)
Definition read_csv {A} (path : string) (file : option A) : result A :=
  match file with
  | Some t => inr t
  | None => inl (FileNotFoundError path)
  end.

(** ['name' in df.columns] *)
Definition has_column (name : string) (cols : list string) : bool :=
  existsb (String.eqb name) cols.

End pd.


(* ================================================================== *)
(** * Errors, rendering and their sequencing *)
(* ================================================================== *)

Class Monad (M : Type -> Type) : Type := {
  ret : forall {A}, A -> M A;
  bind : forall {A B}, M A -> (A -> M B) -> M B
}.

Notation "x <- c1 ;; c2" := (bind c1 (fun x => c2))
  (at level 61, c1 at next level, right associativity).
Notation "c1 ;; c2" := (bind c1 (fun _ => c2))
  (at level 61, right associativity).

#[global] Instance result_Monad : Monad result := {
  ret := fun A (a : A) => inr a;
  bind := fun A B (m : result A) (k : A -> result B) =>
    match m with
    | inl e => inl e
    | inr a => k a
    end
}.

(** A computation of the script: it extends the page rendered so far and
    ends with a value or with a raised exception. *)
Definition St (E A : Type) : Type := list E -> list E * result A.

#[global] Instance St_Monad (E : Type) : Monad (St E) := {
  ret := fun A (a : A) page => (page, inr a);
  bind := fun A B (m : St E A) (k : A -> St E B) page =>
    match m page with
    | (page', inl e) => (page', inl e)
    | (page', inr a) => k a page'
    end
}.

(** A Streamlit call: one more element on the page. *)
Definition emit {E} (e : E) : St E unit :=
  fun page => ((page ++ [e])%list, inr tt).

(** A pandas call inside the script: no rendering, may raise. *)
Definition lift {E A} (r : result A) : St E A :=
  fun page => (page, r).

(** [try: body except FileNotFoundError: handler] *)
Definition try_except_FileNotFoundError {E A} (body handler : St E A)
  : St E A :=
  fun page =>
    match body page with
    | (page', inl (FileNotFoundError _)) => handler page'
    | other => other
    end.

(** A widget returns the option the user picked; without a valid pick it is
    the first option. *)
Definition picked {A} (options : list A) (index : nat) (first : A) : A :=
  nth index options first.

(* ================================================================== *)
(** * The script *)
(* ================================================================== *)

Section Dashboard.

(** Timestamps, their order (the sort order of a [groupby] on dates) and the
    parser of [pd.to_datetime]. *)
Variable datetime : Type.
Variable datetime_compare : datetime -> datetime -> comparison.
Variable parse_datetime : string -> option datetime.

(** The numeric cells of the forecast table. *)
Variable num : Type.

(** ** What the page is made of *)

Inductive trace : Type :=
| go_Scatter (x : list (cell datetime)) (y : list (cell num))
    (mode name : string) (line : option (string * string)).

Inductive figure : Type :=
| px_line (data_frame : list ((datetime * string) * Z))
    (x y color title : string)
| px_bar (data_frame : list ((string * string) * Z))
    (x y color title barmode : string)
| px_bar_h (data_frame : list (string * Z))
    (x y title color color_continuous_scale : string)
| go_Figure (data : list trace) (layout_title : string).

Inductive metric_value : Type :=
| formatted (format_spec : string) (value : Z)
| plain (value : string).

Inductive element : Type :=
| set_page_config (page_title layout page_icon : string)
| markdown (body : string)
| markdown_html (body : string)
| error (body : string)
| sidebar_title (body : string)
| sidebar_radio (label : string) (options : list string)
| sidebar_subheader (body : string)
| sidebar_selectbox (label : string) (options : list (cell string))
| title (body : string)
| columns (n : nat)
| in_column (i : nat) (e : element)
| metric (label : string) (value : metric_value)
| subheader (body : string)
| plotly_chart (fig : figure)
| info (body : string)
| success (body : string)
| write (body : string).

Definition Page : Type -> Type := St element.

(** ** 2. Data loading *)

(** [df['date'] = dates] *)
Definition set_date (df : list (Master.row string))
    (dates : list (cell datetime)) : list (Master.row datetime) :=
  map (fun rd : Master.row string * cell datetime =>
         let (r, d) := rd in
         Master.mk d (Master.state r) (Master.district r) (Master.Type_ r)
           (Master.Age_Group r) (Master.Count r))
      (combine df dates).

Definition load_master_data (fs : Files num)
  : result (list (Master.row datetime)) :=
  df <- pd.read_csv "master_uidai_data_cleaned.csv"
          (master_uidai_data_cleaned_csv fs) ;;
  dates <- pd.to_datetime parse_datetime (map (@Master.date string) df) ;;
  ret (set_date df dates).

(** [df[name]] on the forecast file, for its two date columns. *)
Definition getitem (df : Forecast.csv num) (name : string)
    (field : Forecast.csv_row num -> cell string)
  : result (list (cell string)) :=
  if pd.has_column name (Forecast.columns df)
  then inr (map field (Forecast.rows df))
  else inl (KeyError name).

(** [df['Combined_Date'] = dates] *)
Definition set_Combined_Date (df : Forecast.csv num)
    (dates : list (cell datetime)) : list (Forecast.row datetime num) :=
  map (fun rd : Forecast.csv_row num * cell datetime =>
         Forecast.mk (fst rd) (snd rd))
      (combine (Forecast.rows df) dates).

Definition load_forecast_data (fs : Files num)
  : result (list (Forecast.row datetime num)) :=
  df <- pd.read_csv "forecast_data.csv" (forecast_data_csv fs) ;;
  Combined_Date <-
    (if pd.has_column "Date" (Forecast.columns df)
        && pd.has_column "date" (Forecast.columns df)
     then
       Date <- getitem df "Date" (@Forecast.Date num) ;;
       date <- getitem df "date" (@Forecast.date num) ;;
       ret (map (fun ab => pd.fillna (fst ab) (snd ab)) (combine Date date))
     else if pd.has_column "Date" (Forecast.columns df)
     then getitem df "Date" (@Forecast.Date num)
     else getitem df "date" (@Forecast.date num)) ;;
  Combined_Date <- pd.to_datetime parse_datetime Combined_Date ;;
  ret (set_Combined_Date df Combined_Date).

(** ** 3. Sidebar: the state filter *)

Definition df_filtered (selected_state : cell string)
    (df_master : list (Master.row datetime)) : list (Master.row datetime) :=
  if pd.ne selected_state (Some "All India")
  then filter (fun r => pd.eq (Master.state r) selected_state) df_master
  else df_master.

(** ** Module 1: Executive Summary *)

Definition total_enrol (df_filtered : list (Master.row datetime)) : Z :=
  pd.sum (map (@Master.Count _)
            (filter (fun r => pd.eq (Master.Type_ r) (Some "Enrolment"))
               df_filtered)).

Definition total_updates (df_filtered : list (Master.row datetime)) : Z :=
  pd.sum (map (@Master.Count _)
            (filter (fun r => pd.ne (Master.Type_ r) (Some "Enrolment"))
               df_filtered)).

Definition district_Count (df : list (Master.row datetime))
  : list (cell string * cell Z) :=
  map (fun r => (Master.district r, Master.Count r)) df.

Definition top_district (df_filtered : list (Master.row datetime))
  : result string :=
  pd.idxmax (pd.groupby_sum String.compare (district_Count df_filtered)).

Definition trend_data (df_filtered : list (Master.row datetime))
  : list ((datetime * string) * Z) :=
  pd.groupby_sum (pd.compare_pair datetime_compare String.compare)
    (map (fun r => (pd.key2 (Master.date r) (Master.Type_ r), Master.Count r))
       df_filtered).

Definition executive_summary (df_filtered : list (Master.row datetime))
  : Page unit :=
  emit (title "📊 Executive Dashboard") ;;
  let total_enrol := total_enrol df_filtered in
  let total_updates := total_updates df_filtered in
  top_district <- lift (top_district df_filtered) ;;
  emit (columns 3) ;;
  emit (in_column 1 (metric "Total Enrolments"
                       (formatted ",.0f" total_enrol))) ;;
  emit (in_column 2 (metric "Total Updates (Bio + Demo)"
                       (formatted ",.0f" total_updates))) ;;
  emit (in_column 3 (metric "Highest Traffic District"
                       (plain top_district))) ;;
  emit (subheader "Traffic Trend Over Time") ;;
  let trend_data := trend_data df_filtered in
  let fig := px_line trend_data "date" "Count" "Type"
               "Enrolment vs Updates Trend" in
  emit (plotly_chart fig).

(** ** Module 2: Demographics *)

Definition age_summary (df_filtered : list (Master.row datetime))
  : list ((string * string) * Z) :=
  pd.groupby_sum (pd.compare_pair String.compare String.compare)
    (map (fun r => (pd.key2 (Master.Type_ r) (Master.Age_Group r),
                    Master.Count r))
       df_filtered).

Definition data_story : string :=
  "
            **Observation:** - Enrolments are driven by the 0-5 age group (Newborns).
            - Biometric Updates peak at 5-17 (Mandatory Updates).
            - Demographic Updates are highest in 18+ (Corrections/Migration).
            
            **Conclusion:** The Mandatory Biometric Update policy is working effectively.
            ".

Definition demographics (df_filtered : list (Master.row datetime))
  : Page unit :=
  emit (title "👥 Demographic Analysis") ;;
  emit (columns 2) ;;
  emit (in_column 1 (subheader "The Compliance Check")) ;;
  let age_summary := age_summary df_filtered in
  let fig_bar := px_bar age_summary "Type" "Count" "Age_Group"
                   "Who is accessing which service?" "group" in
  emit (in_column 1 (plotly_chart fig_bar)) ;;
  emit (in_column 2 (subheader "Data Story")) ;;
  emit (in_column 2 (info data_story)).

(** ** Module 3: Migration Tracker *)

Definition demo_data (df_filtered : list (Master.row datetime))
  : list (Master.row datetime) :=
  filter (fun r => pd.eq (Master.Type_ r) (Some "Update_Demographic"))
    df_filtered.

(** [demo_data.groupby('district')['Count'].sum().nlargest(10).reset_index()]
    once [nlargest] has accepted the column: the table that is charted. *)
Definition top_districts (demo_data : list (Master.row datetime))
  : list (string * Z) :=
  pd.nlargest 10 (pd.groupby_sum String.compare (district_Count demo_data)).

(** The type of the Count column of the master table; selecting rows and
    summing by group keep it. *)
Definition Count_dtype (df_master : list (Master.row datetime)) : pd.dtype :=
  pd.column_dtype (map (@Master.Count _) df_master).

(** The page.  [nlargest] checks the type of the summed column before it
    computes anything, and raises when the column is not numeric. *)
Definition migration_tracker (Count_dtype : pd.dtype)
    (df_filtered : list (Master.row datetime)) : Page unit :=
  emit (title "🚚 Migration & Address Updates") ;;
  let demo_data := demo_data df_filtered in
  emit (subheader "Hotspots for Demographic Updates") ;;
  lift (pd.nlargest_check Count_dtype) ;;
  let top_districts := top_districts demo_data in
  let fig_map := px_bar_h top_districts "Count" "district"
                   "Top 10 Districts for Demographic Updates"
                   "Count" "Viridis" in
  emit (plotly_chart fig_map) ;;
  emit (markdown "High volume in specific districts often correlates with **urban migration hubs** or **marriage migration**.").

(** ** Module 4: AI Forecast *)

(** [df_forecast.dropna(subset=['Predicted_Count'])] *)
Definition pred_data (df_forecast : list (Forecast.row datetime num))
  : list (Forecast.row datetime num) :=
  filter (fun r => notna (Forecast.Predicted_Count (Forecast.source r)))
    df_forecast.

Definition actual_trace (df_forecast : list (Forecast.row datetime num))
  : trace :=
  go_Scatter (map (@Forecast.Combined_Date _ _) df_forecast)
    (map (fun r => Forecast.Actual_Count (Forecast.source r)) df_forecast)
    "lines" "Actual Data" None.

Definition forecast_trace (pred_data : list (Forecast.row datetime num))
  : trace :=
  go_Scatter (map (@Forecast.Combined_Date _ _) pred_data)
    (map (fun r => Forecast.Predicted_Count (Forecast.source r)) pred_data)
    "lines+markers" "AI Forecast" (Some ("dash", "red")).

Definition ai_forecast (df_forecast : list (Forecast.row datetime num))
  : Page unit :=
  emit (title "🤖 Future Demand Prediction") ;;
  emit (markdown "Using **Linear Regression** to predict Enrolment trends for the next 6 months.") ;;
  let pred_data := pred_data df_forecast in
  let fig_ai := go_Figure [actual_trace df_forecast; forecast_trace pred_data]
                  "Enrolment Forecast (Next 6 Months)" in
  emit (plotly_chart fig_ai) ;;
  emit (success "AI Insight: The trend slope is negative (-43/day). We are reaching saturation.").

(** ** The whole script *)

Definition css : string :=
  "
    <style>
    .main { background-color: #f5f5f5; }
    h1 { color: #1f77b4; }
    .stMetric { background-color: white; padding: 15px; border-radius: 5px; box-shadow: 1px 1px 5px #ddd; }
    </style>
".

Definition pages : list string :=
  ["1. Executive Summary"; "2. Demographics (Who?)";
   "3. Migration Tracker (Where?)"; "4. AI Forecast (Future)"].

Definition state_options (df_master : list (Master.row datetime))
  : list (cell string) :=
  Some "All India" :: pd.unique (map (@Master.state _) df_master).

(** The guarded load: [Some] tables when [data_loaded] is true. *)
Definition load (fs : Files num)
  : Page (option (list (Master.row datetime)
                  * list (Forecast.row datetime num))) :=
  try_except_FileNotFoundError
    (df_master <- lift (load_master_data fs) ;;
     df_forecast <- lift (load_forecast_data fs) ;;
     ret (Some (df_master, df_forecast)))
    (emit (error "❌ Files not found! Make sure 'master_uidai_data_cleaned.csv' and 'forecast_data.csv' are in this folder.") ;;
     ret None).

(** One run of [app.py]: [nav] and [choice] are what the user picked in the
    radio and in the select box. *)
Definition app (fs : Files num) (nav choice : nat) : Page unit :=
  emit (set_page_config "UIDAI Insight Engine" "wide" "🇮🇳") ;;
  emit (markdown_html css) ;;
  data <- load fs ;;
  emit (sidebar_title "🇮🇳 UIDAI Dashboard") ;;
  emit (sidebar_radio "Navigate" pages) ;;
  let page := picked pages nav "1. Executive Summary" in
  match data with
  | Some (df_master, df_forecast) =>
      emit (sidebar_subheader "Filters") ;;
      emit (sidebar_selectbox "Select State" (state_options df_master)) ;;
      let selected_state :=
        picked (state_options df_master) choice (Some "All India") in
      let df_filtered := df_filtered selected_state df_master in
      if String.eqb page "1. Executive Summary"
      then executive_summary df_filtered
      else if String.eqb page "2. Demographics (Who?)"
      then demographics df_filtered
      else if String.eqb page "3. Migration Tracker (Where?)"
      then migration_tracker (Count_dtype df_master) df_filtered
      else if String.eqb page "4. AI Forecast (Future)"
      then ai_forecast df_forecast
      else ret tt
  | None => emit (write "Waiting for data...")
  end.

(** What the script has rendered when it reaches the load, and what the
    sidebar adds once the tables are there. *)
Definition header : list element :=
  [ set_page_config "UIDAI Insight Engine" "wide" "🇮🇳"; markdown_html css ].

Definition sidebar (df_master : list (Master.row datetime)) : list element :=
  [ sidebar_title "🇮🇳 UIDAI Dashboard";
    sidebar_radio "Navigate" pages;
    sidebar_subheader "Filters";
    sidebar_selectbox "Select State" (state_options df_master) ].

End Dashboard.

Arguments set_page_config {datetime num}.
Arguments markdown {datetime num}.
Arguments markdown_html {datetime num}.
Arguments error {datetime num}.
Arguments sidebar_title {datetime num}.
Arguments sidebar_radio {datetime num}.
Arguments sidebar_subheader {datetime num}.
Arguments sidebar_selectbox {datetime num}.
Arguments title {datetime num}.
Arguments columns {datetime num}.
Arguments in_column {datetime num}.
Arguments metric {datetime num}.
Arguments subheader {datetime num}.
Arguments plotly_chart {datetime num}.
Arguments info {datetime num}.
Arguments success {datetime num}.
Arguments write {datetime num}.
Arguments px_line {datetime num}.
Arguments px_bar {datetime num}.
Arguments px_bar_h {datetime num}.
Arguments go_Figure {datetime num}.
Arguments go_Scatter {datetime num}.

(* ================================================================== *)
(** * Notions used to state the properties *)
(* ================================================================== *)

Definition cell_eq_dec (a b : cell string) : {a = b} + {a <> b}.
Proof. unfold cell; decide equality; apply string_dec. Defined.
Arguments cell_eq_dec : simpl never.

(** The value of a cell of integers, a missing cell counting for nothing. *)
Definition cell_value (c : cell Z) : Z :=
  match c with Some v => v | None => 0 end.

(** The range of int64. *)
Definition in_int64 (z : Z) : Prop := - 2 ^ 63 <= z < 2 ^ 63.

Section GroupNotions.
Variable K : Type.
Variable compare : K -> K -> comparison.

Definition same_key (a b : K) : bool :=
  match compare a b with Eq => true | _ => false end.

(** The sum recorded for key [k] in a table of sums, if any. *)
Fixpoint lookup (k : K) (acc : list (K * Z)) : option Z :=
  match acc with
  | [] => None
  | (k', s) :: rest => if same_key k k' then Some s else lookup k rest
  end.

(** Whether [k] is the key of some row. *)
Fixpoint has_key (k : K) (kvs : list (cell K * cell Z)) : bool :=
  match kvs with
  | [] => false
  | (Some k', _) :: t => same_key k k' || has_key k t
  | (None, _) :: t => has_key k t
  end.

(** The sum of the values of the rows whose key is [k]. *)
Fixpoint total_of (k : K) (kvs : list (cell K * cell Z)) : Z :=
  match kvs with
  | [] => 0
  | (Some k', c) :: t =>
      (if same_key k k' then cell_value c else 0) + total_of k t
  | (None, _) :: t => total_of k t
  end.

Definition key_lt (a b : K * Z) : Prop := compare (fst a) (fst b) = Lt.

(** Descending order of the sums. *)
Definition value_ge (a b : K * Z) : Prop := snd b <= snd a.
End GroupNotions.

Section MasterNotions.
Variable datetime : Type.

(** The Count of a row, a missing Count counting for nothing. *)
Definition Count_value (r : Master.row datetime) : Z :=
  match Master.Count r with Some v => v | None => 0 end.

(** The Count column of the master table is read as int64: no cell is
    missing and every cell is in the range of int64. *)
Definition int64_Counts (df_master : list (Master.row datetime)) : Prop :=
  Forall (fun r => exists c, Master.Count r = Some c /\ in_int64 c)
    df_master.

(** The sum of Count over the rows that satisfy [keep]. *)
Fixpoint sum_Count_where (keep : Master.row datetime -> bool)
    (df : list (Master.row datetime)) : Z :=
  match df with
  | [] => 0
  | r :: t => (if keep r then Count_value r else 0) + sum_Count_where keep t
  end.

Definition Type_is (t : string) (r : Master.row datetime) : bool :=
  if cell_eq_dec (Master.Type_ r) (Some t) then true else false.

Definition Type_is_not (t : string) (r : Master.row datetime) : bool :=
  if cell_eq_dec (Master.Type_ r) (Some t) then false else true.

Definition district_is (d : string) (r : Master.row datetime) : bool :=
  if cell_eq_dec (Master.district r) (Some d) then true else false.

(** The summed Count of district [d]. *)
Definition district_total (d : string) (df : list (Master.row datetime))
  : Z :=
  sum_Count_where (district_is d) df.

(** The districts of the rows, in row order, missing ones left out. *)
Fixpoint districts (df : list (Master.row datetime)) : list string :=
  match df with
  | [] => []
  | r :: t =>
      match Master.district r with
      | Some d => d :: districts t
      | None => districts t
      end
  end.

(** The tie-break as the specification words it: of the districts whose
    summed Count is maximal, the one that occurs first in the row order of
    the table. *)
Definition first_max_in_table_order (df : list (Master.row datetime))
  : option string :=
  find (fun d =>
          forallb (fun d' => district_total d' df <=? district_total d df)
            (districts df))
       (districts df).

(** The rows a state filter leaves out. *)
Definition complement (selected_state : cell string)
    (df_master : list (Master.row datetime)) : list (Master.row datetime) :=
  filter (fun r =>
            if cell_eq_dec (Master.state r) selected_state then false
            else true)
    df_master.
End MasterNotions.

Section ForecastNotions.
Variables datetime num : Type.

(** The cell of a date column of the file, missing when the file has no such
    column. *)
Definition column_cell (df : Forecast.csv num) (name : string)
    (field : Forecast.csv_row num -> cell string) (r : Forecast.csv_row num)
  : cell string :=
  if pd.has_column name (Forecast.columns df) then field r else None.

(** The first non-null of the two date columns of a row. *)
Definition first_non_null (df : Forecast.csv num) (r : Forecast.csv_row num)
  : cell string :=
  match column_cell df "Date" (@Forecast.Date num) r with
  | Some d => Some d
  | None => column_cell df "date" (@Forecast.date num) r
  end.

(** A loaded row carries the row as read, and for [Combined_Date] the parsed
    first non-null of its two date cells (NaT when both are missing). *)
Definition normalized (parse : string -> option datetime)
    (df : Forecast.csv num) (raw : Forecast.csv_row num)
    (r : Forecast.row datetime num) : Prop :=
  Forecast.source r = raw /\
  match first_non_null df raw with
  | Some s => exists d, parse s = Some d /\ Forecast.Combined_Date r = Some d
  | None => Forecast.Combined_Date r = None
  end.

(** The file has one of the two date columns. *)
Definition has_date_column (df : Forecast.csv num) : bool :=
  pd.has_column "Date" (Forecast.columns df)
  || pd.has_column "date" (Forecast.columns df).

(** The number of rows that carry a prediction. *)
Fixpoint predictions (df : list (Forecast.row datetime num)) : nat :=
  match df with
  | [] => O
  | r :: t =>
      match Forecast.Predicted_Count (Forecast.source r) with
      | Some _ => S (predictions t)
      | None => predictions t
      end
  end.

(** The points of a plotted series. *)
Definition points (t : trace datetime num)
  : list (cell datetime * cell num) :=
  match t with go_Scatter x y _ _ _ => combine x y end.
End ForecastNotions.

(* ================================================================== *)
(** * An instance for the examples: calendar dates written YYYY-MM-DD *)
(* ================================================================== *)

Definition digit (c : ascii) : option Z :=
  let n := Z.of_nat (nat_of_ascii c) in
  if (48 <=? n) && (n <=? 57) then Some (n - 48) else None.

Fixpoint digits (acc : Z) (s : string) : option Z :=
  match s with
  | EmptyString => Some acc
  | String c t =>
      match digit c with
      | Some d => digits (10 * acc + d) t
      | None => None
      end
  end.

(** Year, month and day. *)
Definition ymd : Type := (Z * Z * Z)%type.

Definition iso_date (s : string) : option ymd :=
  if (String.length s =? 10)%nat
     && String.eqb (substring 4 1 s) "-" && String.eqb (substring 7 1 s) "-"
  then
    match digits 0 (substring 0 4 s), digits 0 (substring 5 2 s),
          digits 0 (substring 8 2 s) with
    | Some y, Some m, Some d =>
        if (1 <=? m) && (m <=? 12) && (1 <=? d) && (d <=? 31)
        then Some (y, m, d) else None
    | _, _, _ => None
    end
  else None.

Definition ymd_compare (a b : ymd) : comparison :=
  pd.compare_pair (pd.compare_pair Z.compare Z.compare) Z.compare a b.

(** A master row that carries only the columns an example is about. *)
Definition master_row (state district type : cell string) (count : cell Z)
  : Master.row ymd :=
  Master.mk None state district type None count.

(** The rows of the example of the totals. *)
Definition totals_example : list (Master.row ymd) :=
  [ master_row None None (Some "Enrolment") (Some 100);
    master_row None None (Some "Update_Biometric") (Some 40);
    master_row None None (Some "Update_Demographic") (Some 10) ].

(** District sums A: 5, B: 50. *)
Definition districts_example : list (Master.row ymd) :=
  [ master_row None (Some "A") (Some "Enrolment") (Some 2);
    master_row None (Some "B") (Some "Enrolment") (Some 50);
    master_row None (Some "A") (Some "Update_Biometric") (Some 3) ].

(** Two districts with the same sum, the later name first in the table. *)
Definition tie_example : list (Master.row ymd) :=
  [ master_row None (Some "B") (Some "Enrolment") (Some 5);
    master_row None (Some "A") (Some "Enrolment") (Some 5) ].

(** Rows of two states. *)
Definition states_example : list (Master.row ymd) :=
  [ master_row (Some "Goa") (Some "North Goa") (Some "Enrolment") (Some 7);
    master_row (Some "Kerala") (Some "Idukki") (Some "Enrolment") (Some 4);
    master_row (Some "Goa") (Some "South Goa") (Some "Update_Biometric")
      (Some 2) ].

(** A table whose rows all miss their district. *)
Definition no_district_example : list (Master.row ymd) :=
  [ master_row None None (Some "Enrolment") (Some 5) ].

(** The two rows of the date example, in a file with both date columns. *)
Definition dates_example : Forecast.csv Z :=
  Forecast.mk_frame ["Date"; "date"; "Actual_Count"; "Predicted_Count"]
    [ Forecast.mk_csv (Some "2024-01-01") None (Some 10) None;
      Forecast.mk_csv None (Some "2024-02-01") None (Some 12) ].

(** A file with neither date column. *)
Definition no_date_example : Forecast.csv Z :=
  Forecast.mk_frame ["Actual_Count"; "Predicted_Count"]
    [ Forecast.mk_csv None None (Some 10) None ].

(** Ten forecast rows, the last three with a prediction. *)
Definition forecast_row (day : Z) (actual predicted : cell Z)
  : Forecast.row ymd Z :=
  Forecast.mk (Forecast.mk_csv None None actual predicted)
    (Some (2024, 1, day)).

Definition forecast_example : list (Forecast.row ymd Z) :=
  [ forecast_row 1 (Some 70) None; forecast_row 2 (Some 68) None;
    forecast_row 3 (Some 65) None; forecast_row 4 (Some 66) None;
    forecast_row 5 (Some 61) None; forecast_row 6 (Some 60) None;
    forecast_row 7 (Some 58) None; forecast_row 8 None (Some 55);
    forecast_row 9 None (Some 53); forecast_row 10 None (Some 51) ].

(** A forecast file with a date column and no rows. *)
Definition empty_forecast_example : Forecast.csv Z :=
  Forecast.mk_frame ["Date"; "Actual_Count"; "Predicted_Count"] [].

Definition master_csv_example : list (Master.row string) :=
  [ Master.mk (Some "2024-01-01") (Some "Goa") (Some "North Goa")
      (Some "Enrolment") (Some "0-5") (Some 7) ].

Definition files_of (master : option (list (Master.row string)))
    (forecast : option (Forecast.csv Z)) : Files Z :=
  mkFiles master forecast.

(** A master file without rows next to a forecast file without rows. *)
Definition empty_files : Files Z :=
  files_of (Some []) (Some empty_forecast_example).

(** A good master file next to a forecast file without a date column. *)
Definition no_date_files : Files Z :=
  files_of (Some master_csv_example) (Some no_date_example).

Definition master_example : list (Master.row ymd) :=
  [ Master.mk (Some (2024, 1, 1)) (Some "Goa") (Some "North Goa")
      (Some "Enrolment") (Some "0-5") (Some 7) ].

(* ================================================================== *)
(** * Notions for the further properties *)
(* ================================================================== *)

Section TableNotions.
Variable K : Type.

(** The sum of the sums of a grouped table. *)
Definition sum_values (s : list (K * Z)) : Z :=
  fold_right (fun kv acc => snd kv + acc) 0 s.

(** The sum of the values of the rows that have a key. *)
Fixpoint keyed_total (kvs : list (cell K * cell Z)) : Z :=
  match kvs with
  | [] => 0
  | (Some _, c) :: t => cell_value c + keyed_total t
  | (None, _) :: t => keyed_total t
  end.
End TableNotions.

(** The sum of [f] over a list. *)
Definition sum_over {A} (f : A -> Z) (l : list A) : Z :=
  fold_right (fun a acc => f a + acc) 0 l.

Section MoreMasterNotions.
Variable datetime : Type.

(** A loaded master row: the row as read, its date parsed (NaT when the
    cell is missing). *)
Definition loaded_row (parse : string -> option datetime)
    (raw : Master.row string) (r : Master.row datetime) : Prop :=
  Master.state r = Master.state raw
  /\ Master.district r = Master.district raw
  /\ Master.Type_ r = Master.Type_ raw
  /\ Master.Age_Group r = Master.Age_Group raw
  /\ Master.Count r = Master.Count raw
  /\ match Master.date raw with
     | Some s => exists d, parse s = Some d /\ Master.date r = Some d
     | None => Master.date r = None
     end.

(** A loaded master row as far as the columns other than the date go:
    they are as read, and a missing date is still missing. *)
Definition kept_but_date (raw : Master.row string)
    (r : Master.row datetime) : Prop :=
  Master.state r = Master.state raw
  /\ Master.district r = Master.district raw
  /\ Master.Type_ r = Master.Type_ raw
  /\ Master.Age_Group r = Master.Age_Group raw
  /\ Master.Count r = Master.Count raw
  /\ (Master.date raw = None -> Master.date r = None).

Definition Age_Group_is (a : string) (r : Master.row datetime) : bool :=
  if cell_eq_dec (Master.Age_Group r) (Some a) then true else false.

Definition state_is (s : string) (r : Master.row datetime) : bool :=
  if cell_eq_dec (Master.state r) (Some s) then true else false.

(** The row is of date [d], dates told apart by the order on timestamps. *)
Definition date_is (compare : datetime -> datetime -> comparison)
    (d : datetime) (r : Master.row datetime) : bool :=
  match Master.date r with
  | Some d' => same_key compare d d'
  | None => false
  end.
End MoreMasterNotions.

Section PageNotions.
Variables datetime num : Type.

(** The page of a run whose load was recovered. *)
Definition waiting_page : list (element datetime num) :=
  (header datetime num ++
   [ error "❌ Files not found! Make sure 'master_uidai_data_cleaned.csv' and 'forecast_data.csv' are in this folder.";
     sidebar_title "🇮🇳 UIDAI Dashboard";
     sidebar_radio "Navigate" pages;
     write "Waiting for data..." ])%list.
End PageNotions.

(** Files for the examples of the load boundary. *)
Definition no_master_files : Files Z :=
  files_of None (Some dates_example).

Definition no_forecast_files : Files Z :=
  files_of (Some master_csv_example) None.

Definition bad_date_master : list (Master.row string) :=
  [ Master.mk (Some "soon") (Some "Goa") (Some "North Goa")
      (Some "Enrolment") (Some "0-5") (Some 7) ].

Definition bad_date_files : Files Z :=
  files_of (Some bad_date_master) None.

(** Demographic updates in two districts, and an enrolment. *)
Definition migration_example : list (Master.row ymd) :=
  [ master_row (Some "Goa") (Some "North Goa") (Some "Update_Demographic")
      (Some 4);
    master_row (Some "Goa") (Some "South Goa") (Some "Update_Demographic")
      (Some 9);
    master_row (Some "Goa") (Some "North Goa") (Some "Enrolment") (Some 1) ].

(** Two enrolments whose Counts are in the range of int64 and whose sum is
    not. *)
Definition overflow_example : list (Master.row ymd) :=
  [ master_row None None (Some "Enrolment") (Some (2 ^ 63 - 1));
    master_row None None (Some "Enrolment") (Some 1) ].

(** An enrolment and an update whose Counts are in the range of int64 and
    whose sum is not. *)
Definition overflow_two_sides_example : list (Master.row ymd) :=
  [ master_row None None (Some "Enrolment") (Some (2 ^ 63 - 1));
    master_row None None (Some "Update_Biometric") (Some 1) ].

(* ================================================================== *)
(** * Properties *)
(* ================================================================== *)

(** ** The arithmetic of int64 *)

Lemma wrap64_in_int64 (z : Z) : in_int64 (pd.wrap64 z).
Proof.
  unfold in_int64, pd.wrap64.
  pose proof (Z.mod_pos_bound (z + 2 ^ 63) (2 ^ 64)). lia.
Qed.

Lemma wrap64_small (z : Z) : in_int64 z -> pd.wrap64 z = z.
Proof.
  unfold in_int64, pd.wrap64. intros H.
  rewrite Z.mod_small by lia. lia.
Qed.

Lemma wrap64_add_l (a b : Z) :
  pd.wrap64 (pd.wrap64 a + b) = pd.wrap64 (a + b).
Proof.
  unfold pd.wrap64. f_equal.
  replace ((a + 2 ^ 63) mod 2 ^ 64 - 2 ^ 63 + b + 2 ^ 63)
    with ((a + 2 ^ 63) mod 2 ^ 64 + b) by lia.
  rewrite Z.add_mod_idemp_l by lia. f_equal. lia.
Qed.

Lemma wrap64_add_r (a b : Z) :
  pd.wrap64 (a + pd.wrap64 b) = pd.wrap64 (a + b).
Proof.
  rewrite (Z.add_comm a (pd.wrap64 b)), wrap64_add_l. f_equal. lia.
Qed.

Lemma sum_exact (s : list (cell Z)) :
  pd.sum s = pd.wrap64 (fold_right (fun c acc => cell_value c + acc) 0 s).
Proof.
  induction s as [|[v|] t IH]; simpl.
  - reflexivity.
  - rewrite IH, wrap64_add_r. reflexivity.
  - exact IH.
Qed.

Lemma sum_one (c : cell Z) : pd.sum [c] = pd.wrap64 (cell_value c).
Proof. destruct c as [v|]; simpl; [f_equal; lia|reflexivity]. Qed.

(** ** Cells *)

Lemma pd_eq_iff (c v : cell string) :
  pd.eq c v = true <-> exists s, c = Some s /\ v = Some s.
Proof.
  destruct c as [a|], v as [b|]; simpl; split;
    try discriminate; try (intros (s & H1 & H2); discriminate).
  - intros H. apply String.eqb_eq in H. subst. eauto.
  - intros (s & H1 & H2). inversion H1; inversion H2; subst.
    apply String.eqb_refl.
Qed.

Lemma pd_eq_Some (c : cell string) (t : string) :
  pd.eq c (Some t) = true <-> c = Some t.
Proof.
  rewrite pd_eq_iff. split.
  - intros (s & H1 & H2). congruence.
  - intros H. eauto.
Qed.

Lemma pd_eq_dec_agree (c : cell string) (t : string) :
  pd.eq c (Some t) = if cell_eq_dec c (Some t) then true else false.
Proof.
  destruct (cell_eq_dec c (Some t)) as [E|N].
  - apply pd_eq_Some; assumption.
  - destruct (pd.eq c (Some t)) eqn:H; [|reflexivity].
    apply pd_eq_Some in H. contradiction.
Qed.

Lemma pd_ne_dec_agree (c : cell string) (t : string) :
  pd.ne c (Some t) = if cell_eq_dec c (Some t) then false else true.
Proof.
  unfold pd.ne. rewrite pd_eq_dec_agree.
  destruct (cell_eq_dec c (Some t)); reflexivity.
Qed.

Section Properties.
Variable datetime : Type.
Variable datetime_compare : datetime -> datetime -> comparison.
Variable parse_datetime : string -> option datetime.
Variable num : Type.

Set Default Proof Using "Type".

Local Abbreviation master := (list (Master.row datetime)).
Local Abbreviation forecast := (list (Forecast.row datetime num)).

(** ** Sums of Count *)

Lemma sum_filter_where (keep : Master.row datetime -> bool) (df : master) :
  pd.sum (map (@Master.Count _) (filter keep df))
  = pd.wrap64 (sum_Count_where keep df).
Proof.
  rewrite sum_exact. f_equal.
  induction df as [|r t IH]; simpl; [reflexivity|].
  destruct (keep r); simpl.
  - rewrite IH. reflexivity.
  - exact IH.
Qed.

Lemma sum_Count_where_ext (f g : Master.row datetime -> bool) (df : master) :
  (forall r, f r = g r) -> sum_Count_where f df = sum_Count_where g df.
Proof.
  intros H. induction df as [|r t IH]; simpl; [reflexivity|].
  rewrite H, IH. reflexivity.
Qed.

Lemma total_enrol_where (df : master) :
  total_enrol df = pd.wrap64 (sum_Count_where (Type_is "Enrolment") df).
Proof.
  unfold total_enrol. rewrite sum_filter_where. f_equal.
  apply sum_Count_where_ext. intros r. apply pd_eq_dec_agree.
Qed.

Lemma total_updates_where (df : master) :
  total_updates df
  = pd.wrap64 (sum_Count_where (Type_is_not "Enrolment") df).
Proof.
  unfold total_updates. rewrite sum_filter_where. f_equal.
  apply sum_Count_where_ext. intros r. apply pd_ne_dec_agree.
Qed.

Lemma sum_Count_where_split (t : string) (df : master) :
  sum_Count_where (Type_is t) df + sum_Count_where (Type_is_not t) df
  = sum_Count_where (fun _ => true) df.
Proof.
  induction df as [|r rest IH]; simpl; [reflexivity|].
  unfold Type_is, Type_is_not in *.
  destruct (cell_eq_dec (Master.Type_ r) (Some t)); lia.
Qed.

Lemma filter_partition_perm A (f g : A -> bool) (l : list A) :
  (forall a, g a = negb (f a)) ->
  Permutation (filter f l ++ filter g l) l.
Proof.
  intros H. induction l as [|a t IH]; simpl; [constructor|].
  rewrite H. destruct (f a); simpl.
  - constructor. exact IH.
  - apply Permutation_sym, Permutation_cons_app, Permutation_sym, IH.
Qed.

(** ** The Executive Summary page, step by step *)

Lemma executive_summary_run (df : master) (page0 : list (element datetime num)) :
  executive_summary datetime_compare df page0 =
  match top_district df with
  | inl e => ((page0 ++ [title "📊 Executive Dashboard"])%list, inl e)
  | inr d =>
      ((page0 ++
        [ title "📊 Executive Dashboard";
          columns 3;
          in_column 1 (metric "Total Enrolments"
                         (formatted ",.0f" (total_enrol df)));
          in_column 2 (metric "Total Updates (Bio + Demo)"
                         (formatted ",.0f" (total_updates df)));
          in_column 3 (metric "Highest Traffic District" (plain d));
          subheader "Traffic Trend Over Time";
          plotly_chart
            (px_line (trend_data datetime_compare df) "date" "Count" "Type"
               "Enrolment vs Updates Trend") ])%list,
       inr tt)
  end.
Proof.
  unfold executive_summary, emit, lift. cbn [bind ret St_Monad].
  destruct (top_district df) as [e|d].
  - reflexivity.
  - repeat rewrite <- app_assoc. reflexivity.
Qed.

(** ** The script up to the page dispatch *)

Lemma load_run (fs : Files num) (page0 : list (element datetime num)) :
  load parse_datetime fs page0 =
  match load_master_data parse_datetime fs with
  | inl (FileNotFoundError _) =>
      ((page0 ++ [error "❌ Files not found! Make sure 'master_uidai_data_cleaned.csv' and 'forecast_data.csv' are in this folder."])%list, inr None)
  | inl e => (page0, inl e)
  | inr df_master =>
      match load_forecast_data parse_datetime fs with
      | inl (FileNotFoundError _) =>
          ((page0 ++ [error "❌ Files not found! Make sure 'master_uidai_data_cleaned.csv' and 'forecast_data.csv' are in this folder."])%list, inr None)
      | inl e => (page0, inl e)
      | inr df_forecast => (page0, inr (Some (df_master, df_forecast)))
      end
  end.
Proof.
  unfold load, try_except_FileNotFoundError, lift, emit.
  cbn [bind ret St_Monad].
  destruct (load_master_data parse_datetime fs)
    as [[p|k|m|t]|df_master]; try reflexivity.
  destruct (load_forecast_data parse_datetime fs)
    as [[p|k|m|t]|df_forecast]; reflexivity.
Qed.

Lemma app_run (fs : Files num) (nav choice : nat) :
  app datetime_compare parse_datetime fs nav choice [] =
  match load parse_datetime fs (header datetime num) with
  | (page1, inl e) => (page1, inl e)
  | (page1, inr None) =>
      ((page1 ++ [ sidebar_title "🇮🇳 UIDAI Dashboard";
                   sidebar_radio "Navigate" pages;
                   write "Waiting for data..." ])%list, inr tt)
  | (page1, inr (Some (df_master, df_forecast))) =>
      let page := picked pages nav "1. Executive Summary" in
      let selected_state :=
        picked (state_options df_master) choice (Some "All India") in
      let view := df_filtered selected_state df_master in
      let page2 := (page1 ++ sidebar num df_master)%list in
      if String.eqb page "1. Executive Summary"
      then executive_summary datetime_compare view page2
      else if String.eqb page "2. Demographics (Who?)"
      then demographics view page2
      else if String.eqb page "3. Migration Tracker (Where?)"
      then migration_tracker (Count_dtype df_master) view page2
      else if String.eqb page "4. AI Forecast (Future)"
      then ai_forecast df_forecast page2
      else (page2, inr tt)
  end.
Proof.
  unfold app, emit. cbn [bind ret St_Monad app].
  cbn [List.app].
  change [set_page_config "UIDAI Insight Engine" "wide" "🇮🇳";
          markdown_html css]
    with (header datetime num).
  destruct (load parse_datetime fs (header datetime num)) as [page1 [e|[[df_master df_forecast]|]]].
  - reflexivity.
  - cbv zeta. unfold sidebar.
    replace (((((page1 ++ [sidebar_title "🇮🇳 UIDAI Dashboard"]) ++
               [sidebar_radio "Navigate" pages]) ++
              [sidebar_subheader "Filters"]) ++
             [sidebar_selectbox "Select State" (state_options df_master)])%list)
      with (page1 ++ sidebar num df_master)%list
      by (unfold sidebar; repeat rewrite <- app_assoc; reflexivity).
    repeat match goal with
           | |- context [if String.eqb ?a ?b then _ else _] =>
               destruct (String.eqb a b)
           end; reflexivity.
  - repeat rewrite <- app_assoc. reflexivity.
Qed.

(** ** The loaders *)

Lemma to_datetime_Forall2 (s : list (cell string)) (ds : list (cell datetime)) :
  pd.to_datetime parse_datetime s = inr ds <->
  Forall2 (fun c d => pd.to_datetime_cell parse_datetime c = inr d) s ds.
Proof.
  revert ds. induction s as [|c t IH]; intros ds; simpl.
  - split.
    + intros H. inversion H. constructor.
    + intros H. inversion H. reflexivity.
  - destruct (pd.to_datetime_cell parse_datetime c) as [e|d] eqn:Ec.
    + split; [discriminate|]. intros H. inversion H; subst. congruence.
    + destruct (pd.to_datetime parse_datetime t) as [e|ds'] eqn:Et.
      * split; [discriminate|]. intros H. inversion H; subst.
        match goal with
        | H' : Forall2 _ t ?l |- _ => apply IH in H'; discriminate
        end.
      * split.
        -- intros H. inversion H; subst. constructor; [assumption|].
           apply IH. reflexivity.
        -- intros H. inversion H; subst.
           match goal with
           | H' : Forall2 _ t ?l |- _ => apply IH in H'; inversion H'; subst
           end.
           congruence.
Qed.

Lemma map_combine_maps A B C D (f : A -> B) (g : A -> C) (h : B * C -> D)
    (l : list A) :
  map h (combine (map f l) (map g l)) = map (fun a => h (f a, g a)) l.
Proof.
  induction l as [|a t IH]; simpl; [reflexivity|]. rewrite IH. reflexivity.
Qed.

Lemma load_forecast_data_eq (fs : Files num) :
  load_forecast_data parse_datetime fs =
  match forecast_data_csv fs with
  | None => inl (FileNotFoundError "forecast_data.csv")
  | Some df =>
      if has_date_column df
      then
        match pd.to_datetime parse_datetime
                (map (first_non_null df) (Forecast.rows df)) with
        | inl e => inl e
        | inr dates => inr (set_Combined_Date df dates)
        end
      else inl (KeyError "date")
  end.
Proof.
  unfold load_forecast_data, has_date_column.
  destruct (forecast_data_csv fs) as [df|]; [|reflexivity].
  cbn [pd.read_csv bind ret result_Monad].
  unfold getitem.
  destruct (pd.has_column "Date" (Forecast.columns df)) eqn:HD;
    destruct (pd.has_column "date" (Forecast.columns df)) eqn:Hd;
    cbn [andb orb bind ret result_Monad]; try reflexivity.
  - rewrite map_combine_maps.
    replace (map (fun a => pd.fillna (fst (Forecast.Date a, Forecast.date a))
                              (snd (Forecast.Date a, Forecast.date a)))
               (Forecast.rows df))
      with (map (first_non_null df) (Forecast.rows df)); [reflexivity|].
    apply map_ext. intros r. unfold first_non_null, column_cell.
    rewrite HD, Hd. simpl. destruct (Forecast.Date r); reflexivity.
  - replace (map (@Forecast.Date num) (Forecast.rows df))
      with (map (first_non_null df) (Forecast.rows df)); [reflexivity|].
    apply map_ext. intros r. unfold first_non_null, column_cell.
    rewrite HD, Hd. destruct (Forecast.Date r); reflexivity.
  - replace (map (@Forecast.date num) (Forecast.rows df))
      with (map (first_non_null df) (Forecast.rows df)); [reflexivity|].
    apply map_ext. intros r. unfold first_non_null, column_cell.
    rewrite HD, Hd. reflexivity.
Qed.

Lemma set_Combined_Date_Forall2 (df : Forecast.csv num)
    (dates : list (cell datetime)) (loaded : forecast) :
  Forall2 (fun c d => pd.to_datetime_cell parse_datetime c = inr d)
    (map (first_non_null df) (Forecast.rows df)) dates ->
  (loaded = set_Combined_Date df dates <->
   Forall2 (normalized parse_datetime df) (Forecast.rows df) loaded).
Proof.
  unfold set_Combined_Date.
  generalize (Forecast.rows df) as rows.
  intros rows. revert dates loaded.
  induction rows as [|raw t IH]; intros dates loaded H; simpl in *.
  - inversion H; subst. split.
    + intros ->. constructor.
    + intros F. inversion F. reflexivity.
  - inversion H as [|c d cs ds Hc Ht]; subst. simpl. split.
    + intros ->. constructor.
      * split; [reflexivity|]. simpl.
        unfold pd.to_datetime_cell in Hc.
        destruct (first_non_null df raw) as [s|].
        -- destruct (parse_datetime s) as [d'|]; [|discriminate].
           inversion Hc; subst. eauto.
        -- inversion Hc. reflexivity.
      * apply (IH ds). assumption. reflexivity.
    + intros F. inversion F as [|raw' r t' rs [Hs Hn] Ft]; subst t' raw'.
      subst loaded.
      apply (IH ds) in Ft; [|assumption]. rewrite <- Ft. f_equal.
      destruct r as [src cd]. simpl in Hs, Hn. subst src. f_equal.
      unfold pd.to_datetime_cell in Hc.
      destruct (first_non_null df raw) as [s|].
      * destruct Hn as (d' & Hp & Hd). rewrite Hp in Hc. congruence.
      * congruence.
Qed.

Lemma normalized_parses (df : Forecast.csv num) (loaded : forecast) :
  Forall2 (normalized parse_datetime df) (Forecast.rows df) loaded ->
  exists dates,
    Forall2 (fun c d => pd.to_datetime_cell parse_datetime c = inr d)
      (map (first_non_null df) (Forecast.rows df)) dates.
Proof.
  generalize (Forecast.rows df) as rows. intros rows F.
  induction F as [|raw r t rs [Hs Hn] Ft (dates & IH)].
  - exists []. constructor.
  - exists (Forecast.Combined_Date r :: dates). simpl. constructor; [|exact IH].
    unfold pd.to_datetime_cell.
    destruct (first_non_null df raw) as [s|].
    + destruct Hn as (d & Hp & Hd). rewrite Hp, Hd. reflexivity.
    + rewrite Hn. reflexivity.
Qed.

(** ** The state filter *)

Lemma df_filtered_state (s : string) (df_master : master) :
  s <> "All India" ->
  df_filtered (Some s) df_master
  = filter (fun r => pd.eq (Master.state r) (Some s)) df_master.
Proof.
  intros H. unfold df_filtered, pd.ne. simpl.
  destruct (String.eqb s "All India") eqn:E; [|reflexivity].
  apply String.eqb_eq in E. contradiction.
Qed.

Lemma filter_idem A (f : A -> bool) (l : list A) :
  filter f (filter f l) = filter f l.
Proof.
  induction l as [|a t IH]; simpl; [reflexivity|].
  destruct (f a) eqn:E; simpl; [rewrite E, IH|]; auto.
Qed.

(** C3. For a selected state other than "All India" the filtered view holds
    exactly the rows of the master table whose state is the selected one;
    the view and the rows left out make up the table again; filtering a view
    again changes nothing.  With "All India" the view is the whole table,
    and when the missing value is picked the view is empty.  The filter acts
    through its result only: the AI Forecast page, which does not read the
    view, comes out the same whatever state is selected. *)
Theorem df_filtered_selects_state (s : string) (df_master : master) :
  s <> "All India" ->
  (forall r, In r (df_filtered (Some s) df_master)
             <-> In r df_master /\ Master.state r = Some s)
  /\ Permutation
       (df_filtered (Some s) df_master ++ complement (Some s) df_master)
       df_master
  /\ df_filtered (Some s) (df_filtered (Some s) df_master)
     = df_filtered (Some s) df_master
  /\ df_filtered (Some "All India") df_master = df_master
  /\ df_filtered None df_master = []
  /\ (forall (fs : Files num) (choice choice' : nat),
        app datetime_compare parse_datetime fs 3 choice []
        = app datetime_compare parse_datetime fs 3 choice' []).
Proof.
  intros Hs. rewrite !df_filtered_state by assumption.
  split; [|split; [|split; [|split; [|split]]]].
  - intros r. rewrite filter_In, pd_eq_Some. reflexivity.
  - unfold complement. apply filter_partition_perm.
    intros r. rewrite pd_eq_dec_agree.
    destruct (cell_eq_dec (Master.state r) (Some s)); reflexivity.
  - apply filter_idem.
  - reflexivity.
  - unfold df_filtered, pd.ne. simpl.
    induction df_master as [|r t IH]; simpl; [reflexivity|].
    destruct (Master.state r); simpl; exact IH.
  - intros fs choice choice'. rewrite !app_run.
    destruct (load parse_datetime fs (header datetime num))
      as [page1 [e|[[dm dfc]|]]]; reflexivity.
Qed.

(** ** Executive Summary: the two totals *)

(** C4 (as the code has it). On a view of a master table whose Count column
    is int64, Total Enrolments is the sum of Count over the rows whose Type
    is "Enrolment", Total Updates the sum over the rows whose Type is not,
    both as int64 addition gives them: wrapped around, hence the sum itself
    when it is in the range of int64; these are the values the page shows;
    on the rows Enrolment 100, Update_Biometric 40, Update_Demographic 10
    they are 100 and 50. *)
Theorem executive_summary_totals (df_master : master)
    (selected_state : cell string) :
  int64_Counts df_master ->
  total_enrol (df_filtered selected_state df_master)
  = pd.wrap64 (sum_Count_where (Type_is "Enrolment")
                 (df_filtered selected_state df_master))
  /\ total_updates (df_filtered selected_state df_master)
     = pd.wrap64 (sum_Count_where (Type_is_not "Enrolment")
                    (df_filtered selected_state df_master))
  /\ (in_int64 (sum_Count_where (Type_is "Enrolment")
                  (df_filtered selected_state df_master)) ->
      total_enrol (df_filtered selected_state df_master)
      = sum_Count_where (Type_is "Enrolment")
          (df_filtered selected_state df_master))
  /\ (in_int64 (sum_Count_where (Type_is_not "Enrolment")
                  (df_filtered selected_state df_master)) ->
      total_updates (df_filtered selected_state df_master)
      = sum_Count_where (Type_is_not "Enrolment")
          (df_filtered selected_state df_master))
  /\ match top_district (df_filtered selected_state df_master) with
     | inr _ =>
         forall page0,
           In (in_column 1 (metric (num := num) "Total Enrolments"
                 (formatted ",.0f"
                    (pd.wrap64
                       (sum_Count_where (Type_is "Enrolment")
                          (df_filtered selected_state df_master))))))
              (fst (executive_summary datetime_compare
                      (df_filtered selected_state df_master) page0))
           /\ In (in_column 2 (metric "Total Updates (Bio + Demo)"
                    (formatted ",.0f"
                       (pd.wrap64
                          (sum_Count_where (Type_is_not "Enrolment")
                             (df_filtered selected_state df_master))))))
                 (fst (executive_summary datetime_compare
                         (df_filtered selected_state df_master) page0))
     | inl _ => True
     end
  /\ total_enrol totals_example = 100
  /\ total_updates totals_example = 50.
Proof.
  intros _.
  split; [apply total_enrol_where|].
  split; [apply total_updates_where|].
  split; [intros H; rewrite total_enrol_where; apply wrap64_small, H|].
  split; [intros H; rewrite total_updates_where; apply wrap64_small, H|].
  split; [|split; reflexivity].
  destruct (top_district (df_filtered selected_state df_master))
    as [e|d] eqn:E; [exact I|].
  intros page0. rewrite executive_summary_run, E. cbn [fst].
  rewrite <- total_enrol_where, <- total_updates_where.
  split; apply in_or_app; right; simpl; auto 10.
Qed.

(** C9 (as the code has it). On a view of a master table whose Count column
    is int64, Total Enrolments plus Total Updates is the sum of Count over
    all the rows of the view up to the wrap-around of int64: wrapped, it is
    the sum of the column as the code adds it, and it is the sum itself when
    the enrolment sum and the update sum are in the range of int64.  Every
    row is on exactly one side. *)
Theorem totals_partition (df_master : master) (selected_state : cell string) :
  int64_Counts df_master ->
  pd.wrap64 (total_enrol (df_filtered selected_state df_master)
             + total_updates (df_filtered selected_state df_master))
  = pd.sum (map (@Master.Count _) (df_filtered selected_state df_master))
  /\ pd.sum (map (@Master.Count _) (df_filtered selected_state df_master))
     = pd.wrap64 (sum_Count_where (fun _ => true)
                    (df_filtered selected_state df_master))
  /\ (in_int64 (sum_Count_where (Type_is "Enrolment")
                  (df_filtered selected_state df_master)) ->
      in_int64 (sum_Count_where (Type_is_not "Enrolment")
                  (df_filtered selected_state df_master)) ->
      total_enrol (df_filtered selected_state df_master)
      + total_updates (df_filtered selected_state df_master)
      = sum_Count_where (fun _ => true)
          (df_filtered selected_state df_master))
  /\ (forall r : Master.row datetime,
        pd.ne (Master.Type_ r) (Some "Enrolment")
        = negb (pd.eq (Master.Type_ r) (Some "Enrolment")))
  /\ Permutation
       (filter (fun r => pd.eq (Master.Type_ r) (Some "Enrolment"))
          (df_filtered selected_state df_master)
        ++ filter (fun r => pd.ne (Master.Type_ r) (Some "Enrolment"))
             (df_filtered selected_state df_master))
       (df_filtered selected_state df_master).
Proof.
  intros _.
  assert (All : pd.sum (map (@Master.Count _)
                          (df_filtered selected_state df_master))
                = pd.wrap64 (sum_Count_where (fun _ => true)
                               (df_filtered selected_state df_master))).
  { rewrite <- sum_filter_where. f_equal. f_equal.
    induction (df_filtered selected_state df_master) as [|r t IH]; simpl;
      congruence. }
  split; [|split; [exact All|split; [|split]]].
  - rewrite All, total_enrol_where, total_updates_where.
    rewrite wrap64_add_l, wrap64_add_r, sum_Count_where_split. reflexivity.
  - intros He Hu. rewrite total_enrol_where, total_updates_where.
    rewrite (wrap64_small He), (wrap64_small Hu).
    apply sum_Count_where_split.
  - reflexivity.
  - apply filter_partition_perm. reflexivity.
Qed.

(** ** Executive Summary on an empty view *)

Lemma executive_summary_empty (page0 : list (element datetime num)) :
  executive_summary datetime_compare [] page0
  = ((page0 ++ [title "📊 Executive Dashboard"])%list,
     inl (ValueError "attempt to get argmax of an empty sequence")).
Proof. rewrite executive_summary_run. reflexivity. Qed.

(** C5. When the filtered table is empty the top-district computation
    raises the empty-reduction error; nothing catches it: the run of the
    script ends with that exception, the page holding the sidebar and the
    title of the view but no metric and no chart. *)
Theorem executive_summary_raises_on_empty (fs : Files num) (nav choice : nat)
    (df_master : master) (df_forecast : forecast) :
  load_master_data parse_datetime fs = inr df_master ->
  load_forecast_data parse_datetime fs = inr df_forecast ->
  picked pages nav "1. Executive Summary" = "1. Executive Summary" ->
  df_filtered (picked (state_options df_master) choice (Some "All India"))
    df_master = [] ->
  top_district (@nil (Master.row datetime))
  = inl (ValueError "attempt to get argmax of an empty sequence")
  /\ app datetime_compare parse_datetime fs nav choice []
     = ((header datetime num ++ sidebar num df_master
         ++ [title "📊 Executive Dashboard"])%list,
        inl (ValueError "attempt to get argmax of an empty sequence")).
Proof.
  intros Hm Hf Hp He. split; [reflexivity|].
  rewrite app_run, load_run, Hm, Hf. cbv zeta.
  rewrite Hp, He. cbn [String.eqb Ascii.eqb Bool.eqb].
  rewrite executive_summary_empty. rewrite <- app_assoc. reflexivity.
Qed.

(** ** A forecast file without a date column *)

(** C10. When forecast_data.csv exists and has neither a 'Date' nor a 'date'
    column, the loader raises the key error of ['date']; the load boundary
    lets it through: the run ends with it right after the page set-up,
    without the "Waiting for data..." text. *)
Theorem load_forecast_data_without_date_column (fs : Files num)
    (df : Forecast.csv num) (df_master : master) (nav choice : nat) :
  forecast_data_csv fs = Some df ->
  pd.has_column "Date" (Forecast.columns df) = false ->
  pd.has_column "date" (Forecast.columns df) = false ->
  load_master_data parse_datetime fs = inr df_master ->
  load_forecast_data parse_datetime fs = inl (KeyError "date")
  /\ app datetime_compare parse_datetime fs nav choice []
     = (header datetime num, inl (KeyError "date"))
  /\ ~ In (write "Waiting for data...")
         (fst (app datetime_compare parse_datetime fs nav choice [])).
Proof.
  intros Hf HD Hd Hm.
  assert (L : load_forecast_data parse_datetime fs = inl (KeyError "date")).
  { rewrite load_forecast_data_eq, Hf. unfold has_date_column.
    rewrite HD, Hd. reflexivity. }
  assert (A : app datetime_compare parse_datetime fs nav choice []
              = (header datetime num, inl (KeyError "date"))).
  { rewrite app_run, load_run, Hm, L. reflexivity. }
  split; [exact L|]. split; [exact A|].
  rewrite A. simpl. intros [H|[H|[]]]; discriminate.
Qed.

(** ** The normalized date of the forecast table *)

(** C2. The forecast table loads exactly when the file has one of the two
    date columns and every first non-null date parses; each loaded row then
    carries, as Combined_Date, the parsed first non-null of 'Date' and
    'date': 'Date' when it is there, 'date' otherwise.  The rows
    (Date="2024-01-01", date=null) and (Date=null, date="2024-02-01")
    normalize to 2024-01-01 and 2024-02-01. *)
Theorem load_forecast_data_normalizes (fs : Files num)
    (df : Forecast.csv num) :
  forecast_data_csv fs = Some df ->
  (forall loaded : forecast,
     load_forecast_data parse_datetime fs = inr loaded
     <-> has_date_column df = true
         /\ Forall2 (normalized parse_datetime df) (Forecast.rows df) loaded)
  /\ (forall raw s,
        column_cell df "Date" (@Forecast.Date num) raw = Some s ->
        first_non_null df raw = Some s)
  /\ (forall raw,
        column_cell df "Date" (@Forecast.Date num) raw = None ->
        first_non_null df raw
        = column_cell df "date" (@Forecast.date num) raw)
  /\ load_forecast_data iso_date (files_of None (Some dates_example))
     = inr [ Forecast.mk (Forecast.mk_csv (Some "2024-01-01") None
                            (Some 10) None) (Some (2024, 1, 1));
             Forecast.mk (Forecast.mk_csv None (Some "2024-02-01")
                            None (Some 12)) (Some (2024, 2, 1)) ].
Proof.
  intros Hf. split; [|split; [|split]].
  - intros loaded. rewrite load_forecast_data_eq, Hf.
    destruct (has_date_column df).
    + destruct (pd.to_datetime parse_datetime
                  (map (first_non_null df) (Forecast.rows df)))
        as [e|dates] eqn:Et.
      * split; [discriminate|]. intros [_ F].
        apply normalized_parses in F. destruct F as (dates & F).
        apply to_datetime_Forall2 in F. congruence.
      * apply to_datetime_Forall2 in Et.
        pose proof (@set_Combined_Date_Forall2 df dates loaded Et) as S.
        split.
        -- intros H. split; [reflexivity|].
           apply S. congruence.
        -- intros [_ F]. apply S in F. congruence.
    + split; [discriminate|]. intros [H _]. discriminate.
  - intros raw s H. unfold first_non_null. rewrite H. reflexivity.
  - intros raw H. unfold first_non_null. rewrite H. reflexivity.
  - reflexivity.
Qed.

(** ** Migration Tracker without the category *)

Lemma migration_tracker_run (Count_dtype : pd.dtype) (df : master)
    (page0 : list (element datetime num)) :
  migration_tracker Count_dtype df page0
  = match pd.nlargest_check Count_dtype with
    | inl e =>
        ((page0 ++
          [ title "🚚 Migration & Address Updates";
            subheader "Hotspots for Demographic Updates" ])%list,
         inl e)
    | inr _ =>
        ((page0 ++
          [ title "🚚 Migration & Address Updates";
            subheader "Hotspots for Demographic Updates";
            plotly_chart
              (px_bar_h (top_districts (demo_data df)) "Count" "district"
                 "Top 10 Districts for Demographic Updates" "Count"
                 "Viridis");
            markdown "High volume in specific districts often correlates with **urban migration hubs** or **marriage migration**." ])%list,
         inr tt)
    end.
Proof.
  unfold migration_tracker, emit, lift. cbn [bind ret St_Monad].
  destruct (pd.nlargest_check Count_dtype) as [e|[]];
    repeat rewrite <- app_assoc; reflexivity.
Qed.

Lemma Count_dtype_numeric (df_master : master) :
  df_master <> [] -> pd.nlargest_check (Count_dtype df_master) = inr tt.
Proof.
  unfold Count_dtype, pd.column_dtype.
  destruct df_master as [|r t]; [contradiction|]. intros _.
  cbn [map]. destruct (forallb notna (Master.Count r :: _)); reflexivity.
Qed.



(** ** AI Forecast: the two series *)

Lemma ai_forecast_run (df : forecast) (page0 : list (element datetime num)) :
  ai_forecast df page0
  = ((page0 ++
      [ title "🤖 Future Demand Prediction";
        markdown "Using **Linear Regression** to predict Enrolment trends for the next 6 months.";
        plotly_chart
          (go_Figure [actual_trace df; forecast_trace (pred_data df)]
             "Enrolment Forecast (Next 6 Months)");
        success "AI Insight: The trend slope is negative (-43/day). We are reaching saturation." ])%list,
     inr tt).
Proof.
  unfold ai_forecast, emit. cbn [bind ret St_Monad].
  repeat rewrite <- app_assoc. reflexivity.
Qed.

Lemma combine_maps A B C (f : A -> B) (g : A -> C) (l : list A) :
  combine (map f l) (map g l) = map (fun a => (f a, g a)) l.
Proof.
  induction l as [|a t IH]; simpl; [reflexivity|]. rewrite IH. reflexivity.
Qed.

Lemma pred_data_length (df : forecast) :
  length (pred_data df) = predictions df.
Proof.
  unfold pred_data. induction df as [|r t IH]; simpl; [reflexivity|].
  destruct (Forecast.Predicted_Count (Forecast.source r)); simpl; congruence.
Qed.

(** C8. The "AI Forecast" series has one point for each row whose
    Predicted_Count is present and no other point; the "Actual Data" series
    has one point for every row; both are what the page plots.  On ten rows
    of which three carry a prediction the forecast series is those three
    points. *)
Theorem forecast_series_points (df : forecast)
    (page0 : list (element datetime num)) :
  (forall x y,
     In (x, y) (points (forecast_trace (pred_data df)))
     <-> exists r, In r df
                   /\ Forecast.Predicted_Count (Forecast.source r) <> None
                   /\ x = Forecast.Combined_Date r
                   /\ y = Forecast.Predicted_Count (Forecast.source r))
  /\ length (points (forecast_trace (pred_data df))) = predictions df
  /\ points (actual_trace df)
     = map (fun r => (Forecast.Combined_Date r,
                      Forecast.Actual_Count (Forecast.source r))) df
  /\ In (plotly_chart
           (go_Figure [actual_trace df; forecast_trace (pred_data df)]
              "Enrolment Forecast (Next 6 Months)"))
        (fst (ai_forecast df page0))
  /\ length forecast_example = 10%nat
  /\ predictions forecast_example = 3%nat
  /\ points (forecast_trace (pred_data forecast_example))
     = [ (Some (2024, 1, 8), Some 55); (Some (2024, 1, 9), Some 53);
         (Some (2024, 1, 10), Some 51) ].
Proof.
  split; [|split; [|split; [|split; [|repeat split]]]].
  - intros x y. unfold forecast_trace, points. rewrite combine_maps.
    rewrite in_map_iff. unfold pred_data. split.
    + intros (r & E & Hin). apply filter_In in Hin. destruct Hin as [Hin Hn].
      exists r. inversion E; subst. repeat split; try assumption.
      intros N. rewrite N in Hn. discriminate.
    + intros (r & Hin & Hn & -> & ->). exists r. split; [reflexivity|].
      apply filter_In. split; [assumption|].
      destruct (Forecast.Predicted_Count (Forecast.source r));
        [reflexivity|contradiction].
  - unfold forecast_trace, points. rewrite combine_maps, length_map.
    apply pred_data_length.
  - unfold actual_trace, points. apply combine_maps.
  - rewrite ai_forecast_run. cbn [fst]. apply in_or_app. right. simpl. auto 10.
Qed.

(** ** Group sums: [groupby(...).sum()] *)

Section GroupByFacts.
Variable K : Type.
Variable compare : K -> K -> comparison.
Hypothesis compare_eq_iff : forall a b, compare a b = Eq <-> a = b.
Hypothesis compare_antisym : forall a b, compare b a = CompOpp (compare a b).
Hypothesis compare_trans :
  forall a b c, compare a b = Lt -> compare b c = Lt -> compare a c = Lt.

Local Abbreviation sorted := (StronglySorted (key_lt compare)).
Local Abbreviation lookup := (lookup compare).
Local Abbreviation has_key := (has_key compare).
Local Abbreviation total_of := (total_of compare).

Lemma same_key_iff (a b : K) : same_key compare a b = true <-> a = b.
Proof using compare_eq_iff.
  unfold same_key. rewrite <- compare_eq_iff.
  destruct (compare a b); split; congruence.
Qed.

Lemma same_key_refl (a : K) : same_key compare a a = true.
Proof using compare_eq_iff. apply same_key_iff. reflexivity. Qed.

Lemma same_key_lt (a b : K) : compare a b = Lt -> same_key compare b a = false.
Proof using compare_antisym.
  intros H. unfold same_key. rewrite compare_antisym, H. reflexivity.
Qed.

Lemma lookup_below (k : K) (v : Z) (acc : list (K * Z)) :
  Forall (key_lt compare (k, v)) acc -> lookup k acc = None.
Proof.
  induction 1 as [|[k' s] rest H _ IH]; simpl; [reflexivity|].
  unfold key_lt in H. simpl in H.
  unfold same_key. rewrite H. exact IH.
Qed.

Lemma key_lt_Forall_trans (a b : K * Z) (l : list (K * Z)) :
  key_lt compare a b -> Forall (key_lt compare b) l ->
  Forall (key_lt compare a) l.
Proof using compare_trans.
  intros Hab H. eapply Forall_impl; [|exact H].
  intros c Hbc. unfold key_lt in *. eapply compare_trans; eassumption.
Qed.

Lemma group_add_Forall (x : K * Z) (k : K) (v : Z) (acc : list (K * Z)) :
  key_lt compare x (k, v) -> Forall (key_lt compare x) acc ->
  Forall (key_lt compare x) (pd.group_add compare k v acc).
Proof.
  intros Hx H. induction H as [|[k' s] rest Hh Ht IH]; simpl.
  - constructor; [exact Hx|constructor].
  - destruct (compare k k') eqn:E.
    + constructor; [exact Hh|exact Ht].
    + constructor; [exact Hx|]. constructor; [exact Hh|exact Ht].
    + constructor; [exact Hh|exact IH].
Qed.

Lemma group_add_sorted (k : K) (v : Z) (acc : list (K * Z)) :
  sorted acc -> sorted (pd.group_add compare k v acc).
Proof using compare_antisym compare_eq_iff compare_trans.
  induction 1 as [|[k' s] rest Hs IH Hall]; simpl.
  - constructor; constructor.
  - destruct (compare k k') eqn:E.
    + apply compare_eq_iff in E. subst k'.
      constructor; [exact Hs|]. exact Hall.
    + constructor.
      * constructor; assumption.
      * constructor; [exact E|].
        apply key_lt_Forall_trans with (b := (k', s)); assumption.
    + constructor; [exact IH|].
      apply group_add_Forall; [|exact Hall].
      unfold key_lt. simpl. rewrite compare_antisym, E. reflexivity.
Qed.

Lemma group_add_lookup (k k' : K) (v : Z) (acc : list (K * Z)) :
  sorted acc ->
  lookup k' (pd.group_add compare k v acc)
  = if same_key compare k' k
    then Some (match lookup k acc with
               | Some s => pd.wrap64 (s + v)
               | None => v
               end)
    else lookup k' acc.
Proof using compare_eq_iff compare_trans.
  induction 1 as [|[k0 s] rest Hs IH Hall]; simpl.
  - destruct (same_key compare k' k); reflexivity.
  - destruct (compare k k0) eqn:E.
    + apply compare_eq_iff in E. subst k0. simpl.
      rewrite same_key_refl. destruct (same_key compare k' k); reflexivity.
    + simpl.
      assert (N : same_key compare k k0 = false)
        by (unfold same_key; rewrite E; reflexivity).
      rewrite N.
      assert (L : lookup k rest = None).
      { apply lookup_below with (v := v).
        apply key_lt_Forall_trans with (b := (k0, s)); assumption. }
      rewrite L.
      destruct (same_key compare k' k) eqn:E1; [reflexivity|].
      reflexivity.
    + simpl. rewrite IH.
      assert (N : same_key compare k k0 = false).
      { unfold same_key. rewrite E. reflexivity. }
      rewrite N.
      destruct (same_key compare k' k0) eqn:E0; [|reflexivity].
      apply same_key_iff in E0. subst k0.
      destruct (same_key compare k' k) eqn:E1; [|reflexivity].
      apply same_key_iff in E1. subst k'. rewrite same_key_refl in N.
      discriminate.
Qed.

Lemma groupby_from_sorted (kvs : list (cell K * cell Z)) (acc : list (K * Z)) :
  sorted acc -> sorted (fold_left (pd.group_step compare) kvs acc).
Proof using compare_antisym compare_eq_iff compare_trans.
  revert acc. induction kvs as [|[[k|] c] t IH]; intros acc H; simpl.
  - exact H.
  - apply IH. unfold pd.group_step. simpl. apply group_add_sorted. exact H.
  - apply IH. exact H.
Qed.

Lemma total_of_no_key (k : K) (kvs : list (cell K * cell Z)) :
  has_key k kvs = false -> total_of k kvs = 0.
Proof using Type.
  induction kvs as [|[[k0|] c] t IH]; simpl; intros H; auto.
  apply orb_false_iff in H. destruct H as [H1 H2].
  rewrite H1, (IH H2). reflexivity.
Qed.

Lemma groupby_from_lookup (k : K) (kvs : list (cell K * cell Z))
    (acc : list (K * Z)) :
  sorted acc ->
  lookup k (fold_left (pd.group_step compare) kvs acc)
  = match lookup k acc with
    | Some s =>
        Some (if has_key k kvs then pd.wrap64 (s + total_of k kvs) else s)
    | None =>
        if has_key k kvs then Some (pd.wrap64 (total_of k kvs)) else None
    end.
Proof using compare_antisym compare_eq_iff compare_trans.
  revert acc. induction kvs as [|[[k0|] c] t IH]; intros acc H.
  - simpl. destruct (lookup k acc); reflexivity.
  - cbn [fold_left]. unfold pd.group_step at 2. cbn [fst snd].
    rewrite IH by (apply group_add_sorted; exact H).
    rewrite group_add_lookup by exact H. rewrite sum_one.
    change (has_key k ((Some k0, c) :: t))
      with (same_key compare k k0 || has_key k t).
    change (total_of k ((Some k0, c) :: t))
      with ((if same_key compare k k0 then cell_value c else 0)
            + total_of k t).
    destruct (same_key compare k k0) eqn:E.
    + apply same_key_iff in E. subst k0. cbn [orb].
      destruct (lookup k acc) as [s|]; f_equal;
        destruct (has_key k t) eqn:Ht;
        try rewrite (total_of_no_key k t Ht);
        rewrite ?wrap64_add_l, ?wrap64_add_r;
        try (replace (s + pd.wrap64 (cell_value c) + total_of k t)
               with ((s + total_of k t) + pd.wrap64 (cell_value c)) by lia;
             rewrite wrap64_add_r);
        f_equal; lia.
    + cbn [orb]. rewrite Z.add_0_l. reflexivity.
  - cbn [fold_left]. unfold pd.group_step at 2. cbn [fst snd].
    apply IH. exact H.
Qed.

Lemma groupby_sum_sorted (kvs : list (cell K * cell Z)) :
  sorted (pd.groupby_sum compare kvs).
Proof using compare_antisym compare_eq_iff compare_trans.
  apply groupby_from_sorted. constructor.
Qed.

Lemma groupby_sum_lookup (k : K) (kvs : list (cell K * cell Z)) :
  lookup k (pd.groupby_sum compare kvs)
  = if has_key k kvs then Some (pd.wrap64 (total_of k kvs)) else None.
Proof using compare_antisym compare_eq_iff compare_trans.
  unfold pd.groupby_sum. rewrite groupby_from_lookup by constructor.
  reflexivity.
Qed.

Lemma sorted_In_lookup (k : K) (v : Z) (acc : list (K * Z)) :
  sorted acc -> (In (k, v) acc <-> lookup k acc = Some v).
Proof using compare_antisym compare_eq_iff.
  induction 1 as [|[k0 s] rest Hs IH Hall]; simpl.
  - split; [contradiction|discriminate].
  - split.
    + intros [E|Hin].
      * inversion E; subst. rewrite same_key_refl. reflexivity.
      * rewrite Forall_forall in Hall. pose proof (Hall _ Hin) as L.
        unfold key_lt in L. simpl in L.
        rewrite (same_key_lt L). apply IH. exact Hin.
    + destruct (same_key compare k k0) eqn:E.
      * apply same_key_iff in E. subst k0. intros H. inversion H. auto.
      * intros H. right. apply IH. exact H.
Qed.

Lemma sorted_NoDup_keys (acc : list (K * Z)) :
  sorted acc -> NoDup (map fst acc).
Proof using compare_eq_iff.
  induction 1 as [|[k0 s] rest Hs IH Hall]; simpl; constructor; [|exact IH].
  intros Hin. apply in_map_iff in Hin. destruct Hin as ([k v] & E & Hin).
  simpl in E. subst k.
  rewrite Forall_forall in Hall. pose proof (Hall _ Hin) as L.
  unfold key_lt in L. simpl in L.
  assert (R : compare k0 k0 = Eq) by (apply compare_eq_iff; reflexivity).
  congruence.
Qed.

Lemma sorted_app_after (l1 l2 : list (K * Z)) (b : K * Z) :
  sorted (l1 ++ b :: l2) -> Forall (key_lt compare b) l2.
Proof.
  induction l1 as [|a t IH]; simpl; intros H; inversion H; subst; auto.
Qed.

Lemma groupby_sum_In (k : K) (v : Z) (kvs : list (cell K * cell Z)) :
  In (k, v) (pd.groupby_sum compare kvs)
  <-> has_key k kvs = true /\ v = pd.wrap64 (total_of k kvs).
Proof using compare_antisym compare_eq_iff compare_trans.
  rewrite sorted_In_lookup by apply groupby_sum_sorted.
  rewrite groupby_sum_lookup.
  destruct (has_key k kvs); split.
  - intros H. inversion H. auto.
  - intros [_ ->]. reflexivity.
  - discriminate.
  - intros [H _]. discriminate.
Qed.

(** ** The first maximum: [idxmax] *)

Lemma first_max_split (t : list (K * Z)) (kv b : K * Z) :
  fold_left (@pd.better K) t kv = b ->
  exists l1 l2,
    kv :: t = (l1 ++ b :: l2)%list
    /\ (forall y, In y l1 -> snd y < snd b)
    /\ (forall y, In y l2 -> snd y <= snd b).
Proof.
  revert kv. induction t as [|x t IH]; intros kv Hb; simpl in Hb.
  - subst b. exists [], []. simpl. repeat split; intros y [].
  - unfold pd.better in Hb at 2. destruct (snd kv <? snd x) eqn:E.
    + apply Z.ltb_lt in E.
      destruct (IH x Hb) as (l1 & l2 & Heq & H1 & H2).
      exists (kv :: l1), l2. split; [simpl; f_equal; exact Heq|].
      split; [|exact H2].
      intros y [<-|Hy]; [|apply H1; exact Hy].
      destruct l1 as [|a l1']; simpl in Heq; injection Heq as Hx Ht.
      * rewrite <- Hx. exact E.
      * assert (snd a < snd b) by (apply H1; left; reflexivity).
        rewrite Hx in E. lia.
    + apply Z.ltb_ge in E.
      destruct (IH kv Hb) as (l1 & l2 & Heq & H1 & H2).
      destruct l1 as [|a l1']; simpl in Heq; injection Heq as Hx Ht.
      * exists [], (x :: l2). simpl. split; [congruence|].
        split; [intros y []|].
        intros y [<-|Hy]; [rewrite <- Hx; exact E|apply H2; exact Hy].
      * exists (a :: x :: l1'), l2. split; [simpl; congruence|].
        split; [|exact H2].
        assert (snd a < snd b) by (apply H1; left; reflexivity).
        intros y [<-|[<-|Hy]]; [assumption|rewrite Hx in E; lia|].
        apply H1. right. exact Hy.
Qed.

End GroupByFacts.

(** ** The largest sums: [nlargest] *)

Section NlargestFacts.
Variable K : Type.

Set Default Proof Using "Type".

Local Abbreviation desc := (StronglySorted (@value_ge K)).

Lemma insert_desc_perm (kv : K * Z) (l : list (K * Z)) :
  Permutation (pd.insert_desc kv l) (kv :: l).
Proof.
  induction l as [|h t IH]; simpl; [apply Permutation_refl|].
  destruct (snd kv <? snd h); [|apply Permutation_refl].
  eapply Permutation_trans; [apply perm_skip, IH|apply perm_swap].
Qed.

Lemma sort_desc_perm (s : list (K * Z)) : Permutation (pd.sort_desc s) s.
Proof.
  induction s as [|kv t IH]; simpl; [constructor|].
  eapply Permutation_trans; [apply insert_desc_perm|].
  apply perm_skip, IH.
Qed.

Lemma insert_desc_sorted (kv : K * Z) (l : list (K * Z)) :
  desc l -> desc (pd.insert_desc kv l).
Proof.
  induction 1 as [|h t Hs IH Hall]; simpl.
  - constructor; constructor.
  - destruct (snd kv <? snd h) eqn:E.
    + apply Z.ltb_lt in E. constructor; [exact IH|].
      eapply Permutation_Forall;
        [apply Permutation_sym, insert_desc_perm|].
      constructor; [unfold value_ge; lia|exact Hall].
    + apply Z.ltb_ge in E. constructor; [constructor; assumption|].
      constructor; [exact E|].
      eapply Forall_impl; [|exact Hall].
      unfold value_ge. intros a Ha. lia.
Qed.

Lemma sort_desc_sorted (s : list (K * Z)) : desc (pd.sort_desc s).
Proof.
  induction s as [|kv t IH]; simpl; [constructor|].
  apply insert_desc_sorted, IH.
Qed.

Lemma firstn_In A (n : nat) (l : list A) (x : A) :
  In x (firstn n l) -> In x l.
Proof.
  intros H. rewrite <- (firstn_skipn n l). apply in_or_app. left. exact H.
Qed.

Lemma skipn_In A (n : nat) (l : list A) (x : A) :
  In x (skipn n l) -> In x l.
Proof.
  intros H. rewrite <- (firstn_skipn n l). apply in_or_app. right. exact H.
Qed.

Lemma firstn_sorted A (R : A -> A -> Prop) (n : nat) (l : list A) :
  StronglySorted R l -> StronglySorted R (firstn n l).
Proof.
  intros H. revert n. induction H as [|a t Hs IH Hall]; intros [|n]; simpl;
    try constructor.
  - apply IH.
  - rewrite Forall_forall in *. intros x Hx. apply Hall.
    eapply firstn_In; eassumption.
Qed.

Lemma firstn_before_skipn A (R : A -> A -> Prop) (n : nat) (l : list A)
    (x y : A) :
  StronglySorted R l -> In x (firstn n l) -> In y (skipn n l) -> R x y.
Proof.
  intros H. revert n. induction H as [|a t Hs IH Hall]; intros [|n]; simpl;
    try contradiction.
  intros [<-|Hx] Hy.
  - rewrite Forall_forall in Hall. apply Hall.
    eapply skipn_In; eassumption.
  - eapply IH; eassumption.
Qed.

Lemma firstn_NoDup A (n : nat) (l : list A) : NoDup l -> NoDup (firstn n l).
Proof.
  intros H. revert n. induction H as [|a t Hn Ht IH]; intros [|n]; simpl;
    try constructor.
  - intros Hin. apply Hn. eapply firstn_In; eassumption.
  - apply IH.
Qed.

End NlargestFacts.

Set Default Proof Using "Type".

(** ** District names are compared as strings *)

Lemma string_compare_eq_iff (a b : string) : String.compare a b = Eq <-> a = b.
Proof.
  split; [apply String.compare_eq_iff|].
  intros ->. pose proof (String.compare_antisym b b) as H.
  destruct (String.compare b b); simpl in H; congruence.
Qed.

Lemma string_compare_antisym (a b : string) :
  String.compare b a = CompOpp (String.compare a b).
Proof. apply String.compare_antisym. Qed.

Lemma string_compare_trans (a b c : string) :
  String.compare a b = Lt -> String.compare b c = Lt ->
  String.compare a c = Lt.
Proof.
  intros H1 H2.
  pose proof (@StrictOrder_Transitive _ _ String_as_OT.lt_strorder) as T.
  exact (T a b c H1 H2).
Qed.

Lemma same_key_string (a b : string) :
  same_key String.compare a b = true <-> a = b.
Proof.
  apply same_key_iff. apply string_compare_eq_iff.
Qed.

(** ** The sums by district *)

Lemma districts_In (d : string) (df : master) :
  In d (districts df) <-> exists r, In r df /\ Master.district r = Some d.
Proof.
  induction df as [|r t IH]; simpl.
  - split; [contradiction|]. intros (r & [] & _).
  - destruct (Master.district r) as [d0|] eqn:E; simpl.
    + rewrite IH. split.
      * intros [->|(r' & Hin & Hd)]; eauto.
      * intros (r' & [->|Hin] & Hd); [left; congruence|right; eauto].
    + rewrite IH. split.
      * intros (r' & Hin & Hd). eauto.
      * intros (r' & [->|Hin] & Hd); [congruence|eauto].
Qed.

Lemma has_key_districts (d : string) (df : master) :
  has_key String.compare d (district_Count df) = true <-> In d (districts df).
Proof.
  induction df as [|r t IH]; simpl.
  - split; [discriminate|contradiction].
  - destruct (Master.district r) as [d0|]; simpl; [|exact IH].
    rewrite orb_true_iff, IH, same_key_string. split.
    + intros [->|H]; auto.
    + intros [->|H]; auto.
Qed.

Lemma total_of_district (d : string) (df : master) :
  total_of String.compare d (district_Count df) = district_total d df.
Proof.
  unfold district_total.
  induction df as [|r t IH]; simpl; [reflexivity|].
  unfold district_is at 1, Count_value, cell_value.
  destruct (Master.district r) as [d0|]; simpl.
  - rewrite IH.
    destruct (cell_eq_dec (Some d0) (Some d)) as [E|N].
    + inversion E; subst.
      assert (S : same_key String.compare d d = true)
        by (apply same_key_string; reflexivity).
      rewrite S. reflexivity.
    + destruct (same_key String.compare d d0) eqn:S; [|reflexivity].
      apply same_key_string in S. subst. contradiction.
  - rewrite IH. destruct (cell_eq_dec None (Some d)); [discriminate|reflexivity].
Qed.

Lemma district_sums_sorted (df : master) :
  StronglySorted (key_lt String.compare)
    (pd.groupby_sum String.compare (district_Count df)).
Proof.
  apply groupby_sum_sorted.
  - apply string_compare_eq_iff.
  - apply string_compare_antisym.
  - apply string_compare_trans.
Qed.

Lemma district_sums_In (d : string) (v : Z) (df : master) :
  In (d, v) (pd.groupby_sum String.compare (district_Count df))
  <-> In d (districts df) /\ v = pd.wrap64 (district_total d df).
Proof.
  rewrite groupby_sum_In.
  - rewrite has_key_districts, total_of_district. reflexivity.
  - apply string_compare_eq_iff.
  - apply string_compare_antisym.
  - apply string_compare_trans.
Qed.

Lemma string_leb_of_lt (a b : string) :
  a = b \/ String.compare a b = Lt -> String.leb a b = true.
Proof.
  unfold String.leb. intros [->|H].
  - assert (E : String.compare b b = Eq)
      by (apply string_compare_eq_iff; reflexivity).
    rewrite E. reflexivity.
  - rewrite H. reflexivity.
Qed.

(** ** Executive Summary: the top district *)

Lemma top_district_cases (df : master) :
  (districts df = []
   /\ top_district df
      = inl (ValueError "attempt to get argmax of an empty sequence"))
  \/ (exists d,
        top_district df = inr d
        /\ In d (districts df)
        /\ (forall d', In d' (districts df) ->
                       pd.wrap64 (district_total d' df)
                       <= pd.wrap64 (district_total d df))
        /\ (forall d', In d' (districts df) ->
                       pd.wrap64 (district_total d' df)
                       = pd.wrap64 (district_total d df) ->
                       d = d' \/ String.compare d d' = Lt)).
Proof.
  unfold top_district.
  pose proof (district_sums_sorted df) as Hsorted.
  pose proof (fun d v => district_sums_In d v df) as Hgroups.
  destruct (pd.groupby_sum String.compare (district_Count df))
    as [|kv t] eqn:Eg.
  - left. split; [|reflexivity].
    destruct (districts df) as [|d0 ds] eqn:Ed; [reflexivity|].
    exfalso. apply (Hgroups d0 (pd.wrap64 (district_total d0 df))).
    split; [left; reflexivity|reflexivity].
  - right. simpl.
    destruct (first_max_split t kv eq_refl) as (l1 & l2 & Heq & H1 & H2).
    destruct (fold_left (@pd.better string) t kv) as [d v] eqn:Eb.
    assert (Hb : In (d, v) (kv :: t))
      by (rewrite Heq; apply in_or_app; right; left; reflexivity).
    apply Hgroups in Hb. destruct Hb as [Hd Hv].
    exists d. split; [reflexivity|]. split; [exact Hd|].
    assert (Hall : forall d', In d' (districts df) ->
                    In (d', pd.wrap64 (district_total d' df))
                       (l1 ++ (d, v) :: l2)).
    { intros d' Hd'. rewrite <- Heq. apply Hgroups. auto. }
    split.
    + intros d' Hd'. apply Hall in Hd'. rewrite <- Hv.
      apply in_app_or in Hd'. destruct Hd' as [Hl|[E|Hr]].
      * apply H1 in Hl. simpl in Hl. lia.
      * inversion E. lia.
      * apply H2 in Hr. simpl in Hr. lia.
    + intros d' Hd' Heqv. apply Hall in Hd'.
      apply in_app_or in Hd'. destruct Hd' as [Hl|[E|Hr]].
      * apply H1 in Hl. simpl in Hl. lia.
      * inversion E. left. reflexivity.
      * right. rewrite Heq in Hsorted.
        apply sorted_app_after in Hsorted.
        rewrite Forall_forall in Hsorted. apply (Hsorted _ Hr).
Qed.

(** C1 (as the code has it). On a view, with at least one row that names its
    district, of a master table whose Count column is int64, the Highest
    Traffic District is a district of the view whose summed Count, as int64
    addition gives it, is maximal, and among the districts with that
    maximal sum it is the least in string order, the order in which the
    grouped sums are laid out; when the sums of all districts are in the
    range of int64 this is the maximum of the sums themselves; for the
    district sums A: 5, B: 50 it is B. *)
Theorem top_district_is_least_of_maximal (df_master : master)
    (selected_state : cell string) :
  int64_Counts df_master ->
  (exists r, In r (df_filtered selected_state df_master)
             /\ Master.district r <> None) ->
  exists d,
    top_district (df_filtered selected_state df_master) = inr d
    /\ In d (districts (df_filtered selected_state df_master))
    /\ (forall d',
          In d' (districts (df_filtered selected_state df_master)) ->
          pd.wrap64
            (district_total d' (df_filtered selected_state df_master))
          <= pd.wrap64
               (district_total d (df_filtered selected_state df_master)))
    /\ (forall d',
          In d' (districts (df_filtered selected_state df_master)) ->
          pd.wrap64
            (district_total d' (df_filtered selected_state df_master))
          = pd.wrap64
              (district_total d (df_filtered selected_state df_master)) ->
          String.leb d d' = true)
    /\ ((forall d',
           In d' (districts (df_filtered selected_state df_master)) ->
           in_int64
             (district_total d' (df_filtered selected_state df_master))) ->
        (forall d',
           In d' (districts (df_filtered selected_state df_master)) ->
           district_total d' (df_filtered selected_state df_master)
           <= district_total d (df_filtered selected_state df_master))
        /\ (forall d',
              In d' (districts (df_filtered selected_state df_master)) ->
              district_total d' (df_filtered selected_state df_master)
              = district_total d (df_filtered selected_state df_master) ->
              String.leb d d' = true))
    /\ district_total "A" districts_example = 5
    /\ district_total "B" districts_example = 50
    /\ top_district districts_example = inr "B".
Proof.
  intros _ (r0 & Hin0 & Hd0).
  set (view := df_filtered selected_state df_master) in *.
  destruct (top_district_cases view)
    as [[Hnil _]|(d & Hd & Hin & Hmax & Hleast)].
  - exfalso. destruct (Master.district r0) as [d0|] eqn:E; [|contradiction].
    assert (In d0 (districts view)) by (apply districts_In; eauto).
    rewrite Hnil in *. contradiction.
  - exists d. split; [exact Hd|]. split; [exact Hin|].
    split; [exact Hmax|].
    split; [intros d' Hd' He; apply string_leb_of_lt, Hleast; assumption|].
    split; [|repeat split].
    intros Hrange. split.
    + intros d' Hd'. pose proof (Hmax d' Hd') as M.
      rewrite !wrap64_small in M by (apply Hrange; assumption). exact M.
    + intros d' Hd' He. apply string_leb_of_lt, Hleast; [exact Hd'|].
      rewrite !wrap64_small by (apply Hrange; assumption). exact He.
Qed.

(** On any table without a district the grouped sums are empty and [idxmax]
    raises. *)
Lemma top_district_without_district (df : master) :
  districts df = [] ->
  top_district df
  = inl (ValueError "attempt to get argmax of an empty sequence").
Proof.
  intros H. unfold top_district.
  destruct (pd.groupby_sum String.compare (district_Count df))
    as [|[d v] t] eqn:Eg; [reflexivity|].
  assert (Hin : In (d, v) (pd.groupby_sum String.compare (district_Count df)))
    by (rewrite Eg; left; reflexivity).
  apply district_sums_In in Hin. rewrite H in Hin. destruct Hin as [[] _].
Qed.

(** ** Migration Tracker: the top ten *)

(** C6 (as the code has it). On a view of a master table that has at least
    one row and whose Count column is int64, the Migration Tracker charts
    the table it gets by keeping the rows whose Type is
    "Update_Demographic", summing their Count by district (as int64 addition
    gives the sums) and taking the ten districts with the largest sums,
    largest first: every charted district is a district of those rows with
    its sum, no district is charted twice, there are ten of them or as many
    as there are districts, and a district left out has a sum that none of
    the charted ones is below. *)
Theorem top_districts_are_ten_largest (df_master : master)
    (selected_state : cell string) (page0 : list (element datetime num)) :
  df_master <> [] ->
  int64_Counts df_master ->
  migration_tracker (Count_dtype df_master)
    (df_filtered selected_state df_master) page0
  = ((page0 ++
      [ title "🚚 Migration & Address Updates";
        subheader "Hotspots for Demographic Updates";
        plotly_chart
          (px_bar_h
             (top_districts
                (demo_data (df_filtered selected_state df_master)))
             "Count" "district"
             "Top 10 Districts for Demographic Updates" "Count" "Viridis");
        markdown "High volume in specific districts often correlates with **urban migration hubs** or **marriage migration**." ])%list,
     inr tt)
  /\ (forall r,
        In r (demo_data (df_filtered selected_state df_master))
        <-> In r (df_filtered selected_state df_master)
            /\ Master.Type_ r = Some "Update_Demographic")
  /\ (forall d c,
        In (d, c)
           (top_districts
              (demo_data (df_filtered selected_state df_master)))
        -> In d (districts
                   (demo_data (df_filtered selected_state df_master)))
           /\ c = pd.wrap64
                    (district_total d
                       (demo_data (df_filtered selected_state df_master))))
  /\ StronglySorted (@value_ge string)
       (top_districts (demo_data (df_filtered selected_state df_master)))
  /\ NoDup
       (map fst
          (top_districts
             (demo_data (df_filtered selected_state df_master))))
  /\ length
       (top_districts (demo_data (df_filtered selected_state df_master)))
     = Nat.min 10
         (length
            (nodup string_dec
               (districts
                  (demo_data (df_filtered selected_state df_master)))))
  /\ (forall d,
        In d (districts
                (demo_data (df_filtered selected_state df_master))) ->
        ~ In d (map fst
                  (top_districts
                     (demo_data (df_filtered selected_state df_master)))) ->
        forall d' c',
          In (d', c')
             (top_districts
                (demo_data (df_filtered selected_state df_master))) ->
          pd.wrap64
            (district_total d
               (demo_data (df_filtered selected_state df_master)))
          <= c').
Proof.
  intros Hrows _.
  split.
  { rewrite migration_tracker_run, (Count_dtype_numeric Hrows).
    reflexivity. }
  set (df := df_filtered selected_state df_master).
  set (demo := demo_data df). unfold top_districts, pd.nlargest.
  set (groups := pd.groupby_sum String.compare (district_Count demo)).
  pose proof (fun d v => district_sums_In d v demo) as Hgroups.
  fold groups in Hgroups.
  pose proof (sort_desc_perm groups) as Hperm.
  pose proof (sort_desc_sorted groups) as Hdesc.
  assert (Hkeys : NoDup (map fst groups)).
  { unfold groups.
    apply sorted_NoDup_keys with (compare := String.compare).
    - apply string_compare_eq_iff.
    - apply district_sums_sorted. }
  split; [|split; [|split; [|split; [|split]]]].
  - intros r. unfold demo, demo_data. rewrite filter_In, pd_eq_Some.
    reflexivity.
  - intros d c Hin. apply firstn_In in Hin.
    apply Hgroups. eapply Permutation_in; eassumption.
  - apply firstn_sorted. exact Hdesc.
  - rewrite <- firstn_map. apply firstn_NoDup.
    eapply Permutation_NoDup; [|exact Hkeys].
    apply Permutation_map, Permutation_sym, Hperm.
  - rewrite length_firstn. f_equal.
    rewrite (Permutation_length Hperm).
    rewrite <- (length_map fst groups).
    apply Permutation_length. apply NoDup_Permutation.
    + exact Hkeys.
    + apply NoDup_nodup.
    + intros d. rewrite nodup_In, in_map_iff. split.
      * intros ([d1 v] & E & Hin). simpl in E. subst d1.
        apply Hgroups in Hin. apply Hin.
      * intros Hin. exists (d, pd.wrap64 (district_total d demo)).
        split; [reflexivity|]. apply Hgroups. auto.
  - intros d Hd Hout d' c' Hin.
    assert (Hg : In (d, pd.wrap64 (district_total d demo))
                    (pd.sort_desc groups)).
    { eapply Permutation_in; [apply Permutation_sym, Hperm|].
      apply Hgroups. auto. }
    rewrite <- (firstn_skipn 10 (pd.sort_desc groups)) in Hg.
    apply in_app_or in Hg. destruct Hg as [Hf|Hs].
    + exfalso. apply Hout. apply in_map_iff.
      exists (d, pd.wrap64 (district_total d demo)). auto.
    + exact (@firstn_before_skipn _ _ 10%nat _ _ _ Hdesc Hin Hs).
Qed.

End Properties.

(* ================================================================== *)
(** * The properties on the examples *)
(* ================================================================== *)

(** The filter on a table of two states, "Goa" selected. *)
Lemma df_filtered_selects_state_on_example :
  "Goa" <> "All India"
  /\ ((forall r, In r (df_filtered (Some "Goa") states_example)
                 <-> In r states_example /\ Master.state r = Some "Goa")
      /\ Permutation
           (df_filtered (Some "Goa") states_example
            ++ complement (Some "Goa") states_example)
           states_example
      /\ df_filtered (Some "Goa") (df_filtered (Some "Goa") states_example)
         = df_filtered (Some "Goa") states_example
      /\ df_filtered (Some "All India") states_example = states_example
      /\ df_filtered None states_example = []
      /\ (forall (fs : Files Z) (choice choice' : nat),
            app ymd_compare iso_date fs 3 choice []
            = app ymd_compare iso_date fs 3 choice' [])).
Proof.
  split; [discriminate|].
  apply (@df_filtered_selects_state ymd ymd_compare iso_date Z "Goa"
           states_example).
  discriminate.
Defined.

(** The top district of the table with sums A: 5, B: 50, all states selected. *)
Lemma top_district_on_example :
  (int64_Counts districts_example)
  /\ (exists r, In r (df_filtered (Some "All India") districts_example)
             /\ Master.district r <> None)
  /\ (exists d,
    top_district (df_filtered (Some "All India") districts_example) = inr d
    /\ In d (districts (df_filtered (Some "All India") districts_example))
    /\ (forall d',
          In d' (districts (df_filtered (Some "All India") districts_example)) ->
          pd.wrap64
            (district_total d' (df_filtered (Some "All India") districts_example))
          <= pd.wrap64
               (district_total d (df_filtered (Some "All India") districts_example)))
    /\ (forall d',
          In d' (districts (df_filtered (Some "All India") districts_example)) ->
          pd.wrap64
            (district_total d' (df_filtered (Some "All India") districts_example))
          = pd.wrap64
              (district_total d (df_filtered (Some "All India") districts_example)) ->
          String.leb d d' = true)
    /\ ((forall d',
           In d' (districts (df_filtered (Some "All India") districts_example)) ->
           in_int64
             (district_total d' (df_filtered (Some "All India") districts_example))) ->
        (forall d',
           In d' (districts (df_filtered (Some "All India") districts_example)) ->
           district_total d' (df_filtered (Some "All India") districts_example)
           <= district_total d (df_filtered (Some "All India") districts_example))
        /\ (forall d',
              In d' (districts (df_filtered (Some "All India") districts_example)) ->
              district_total d' (df_filtered (Some "All India") districts_example)
              = district_total d (df_filtered (Some "All India") districts_example) ->
              String.leb d d' = true))
    /\ district_total "A" districts_example = 5
    /\ district_total "B" districts_example = 50
    /\ top_district districts_example = inr "B").
Proof.
  assert (H0 : int64_Counts districts_example).
  { repeat constructor; eexists; (split; [reflexivity|unfold in_int64; lia]). }
  assert (H1 : (exists r, In r (df_filtered (Some "All India") districts_example)
             /\ Master.district r <> None)).
  { exists (master_row None (Some "A") (Some "Enrolment") (Some 2)).
    split; [left; reflexivity|discriminate]. }
  split; [exact H0|].
  split; [exact H1|].
  apply (@top_district_is_least_of_maximal ymd districts_example
           (Some "All India") H0 H1).
Defined.

(** The tie-break is not the row order of the table: with B before A and
    equal sums the page shows A; and a table whose rows all miss their
    district has no top district although it is not empty. *)
Lemma top_district_not_first_in_table_order :
  tie_example <> []
  /\ first_max_in_table_order tie_example = Some "B"
  /\ top_district tie_example = inr "A"
  /\ ~ (exists d, top_district tie_example = inr d
                  /\ first_max_in_table_order tie_example = Some d)
  /\ no_district_example <> []
  /\ top_district no_district_example
     = inl (ValueError "attempt to get argmax of an empty sequence").
Proof.
  split; [discriminate|].
  split; [reflexivity|].
  split; [reflexivity|].
  split; [|split; [discriminate|reflexivity]].
  intros (d & H1 & H2).
  assert (E1 : top_district tie_example = inr "A") by reflexivity.
  assert (E2 : first_max_in_table_order tie_example = Some "B")
    by reflexivity.
  rewrite E1 in H1. rewrite E2 in H2.
  injection H1 as <-. discriminate H2.
Qed.

(** The date example, loaded with the YYYY-MM-DD parser. *)
Lemma load_forecast_data_normalizes_on_example :
  forecast_data_csv (files_of None (Some dates_example)) = Some dates_example
  /\ ((forall loaded : list (Forecast.row ymd Z),
         load_forecast_data iso_date (files_of None (Some dates_example))
         = inr loaded
         <-> has_date_column dates_example = true
             /\ Forall2 (normalized iso_date dates_example)
                  (Forecast.rows dates_example) loaded)
      /\ (forall raw s,
            column_cell dates_example "Date" (@Forecast.Date Z) raw = Some s ->
            first_non_null dates_example raw = Some s)
      /\ (forall raw,
            column_cell dates_example "Date" (@Forecast.Date Z) raw = None ->
            first_non_null dates_example raw
            = column_cell dates_example "date" (@Forecast.date Z) raw)
      /\ load_forecast_data iso_date (files_of None (Some dates_example))
         = inr [ Forecast.mk (Forecast.mk_csv (Some "2024-01-01") None
                                (Some 10) None) (Some (2024, 1, 1));
                 Forecast.mk (Forecast.mk_csv None (Some "2024-02-01")
                                None (Some 12)) (Some (2024, 2, 1)) ]).
Proof.
  split; [reflexivity|].
  apply (@load_forecast_data_normalizes ymd iso_date Z
           (files_of None (Some dates_example)) dates_example).
  reflexivity.
Defined.

(** The Executive Summary on an empty master table. *)
Lemma executive_summary_raises_on_empty_example :
  load_master_data iso_date empty_files = inr []
  /\ load_forecast_data iso_date empty_files = inr []
  /\ picked pages 0 "1. Executive Summary" = "1. Executive Summary"
  /\ @df_filtered ymd
       (picked (state_options (@nil (Master.row ymd))) 0 (Some "All India"))
       [] = []
  /\ (top_district (@nil (Master.row ymd))
      = inl (ValueError "attempt to get argmax of an empty sequence")
      /\ app ymd_compare iso_date empty_files 0 0 []
         = ((header ymd Z ++ sidebar Z []
             ++ [title "📊 Executive Dashboard"])%list,
            inl (ValueError "attempt to get argmax of an empty sequence"))).
Proof.
  split; [reflexivity|]. split; [reflexivity|].
  split; [reflexivity|]. split; [reflexivity|].
  apply (@executive_summary_raises_on_empty ymd ymd_compare iso_date Z
           empty_files 0%nat 0%nat [] []); reflexivity.
Defined.



(** A forecast file without a date column next to a good master file. *)
Lemma load_forecast_data_without_date_column_example :
  forecast_data_csv no_date_files = Some no_date_example
  /\ pd.has_column "Date" (Forecast.columns no_date_example) = false
  /\ pd.has_column "date" (Forecast.columns no_date_example) = false
  /\ load_master_data iso_date no_date_files = inr master_example
  /\ (load_forecast_data iso_date no_date_files = inl (KeyError "date")
      /\ app ymd_compare iso_date no_date_files 2 1 []
         = (header ymd Z, inl (KeyError "date"))
      /\ ~ In (write "Waiting for data...")
             (fst (app ymd_compare iso_date no_date_files 2 1 []))).
Proof.
  split; [reflexivity|]. split; [reflexivity|].
  split; [reflexivity|]. split; [reflexivity|].
  apply (@load_forecast_data_without_date_column ymd ymd_compare iso_date Z
           no_date_files no_date_example master_example 2%nat 1%nat);
    reflexivity.
Defined.

(** The two totals on the rows Enrolment 100, Update_Biometric 40,
    Update_Demographic 10, all states selected. *)
Lemma executive_summary_totals_on_example :
  (int64_Counts totals_example)
  /\ (total_enrol (df_filtered (Some "All India") totals_example)
  = pd.wrap64 (sum_Count_where (Type_is "Enrolment")
                 (df_filtered (Some "All India") totals_example))
  /\ total_updates (df_filtered (Some "All India") totals_example)
     = pd.wrap64 (sum_Count_where (Type_is_not "Enrolment")
                    (df_filtered (Some "All India") totals_example))
  /\ (in_int64 (sum_Count_where (Type_is "Enrolment")
                  (df_filtered (Some "All India") totals_example)) ->
      total_enrol (df_filtered (Some "All India") totals_example)
      = sum_Count_where (Type_is "Enrolment")
          (df_filtered (Some "All India") totals_example))
  /\ (in_int64 (sum_Count_where (Type_is_not "Enrolment")
                  (df_filtered (Some "All India") totals_example)) ->
      total_updates (df_filtered (Some "All India") totals_example)
      = sum_Count_where (Type_is_not "Enrolment")
          (df_filtered (Some "All India") totals_example))
  /\ match top_district (df_filtered (Some "All India") totals_example) with
     | inr _ =>
         forall page0,
           In (in_column 1 (metric (num := Z) "Total Enrolments"
                 (formatted ",.0f"
                    (pd.wrap64
                       (sum_Count_where (Type_is "Enrolment")
                          (df_filtered (Some "All India") totals_example))))))
              (fst (executive_summary ymd_compare
                      (df_filtered (Some "All India") totals_example) page0))
           /\ In (in_column 2 (metric "Total Updates (Bio + Demo)"
                    (formatted ",.0f"
                       (pd.wrap64
                          (sum_Count_where (Type_is_not "Enrolment")
                             (df_filtered (Some "All India") totals_example))))))
                 (fst (executive_summary ymd_compare
                         (df_filtered (Some "All India") totals_example) page0))
     | inl _ => True
     end
  /\ total_enrol totals_example = 100
  /\ total_updates totals_example = 50).
Proof.
  assert (H0 : int64_Counts totals_example).
  { repeat constructor; eexists; (split; [reflexivity|unfold in_int64; lia]). }
  split; [exact H0|].
  apply (@executive_summary_totals ymd ymd_compare Z totals_example
           (Some "All India") H0).
Defined.

(** On a view whose enrolment Counts add up to more than int64 holds, Total
    Enrolments is not the sum of Count over the rows whose Type is
    "Enrolment": 2^63 - 1 and 1 give -2^63. *)
Lemma total_enrol_wraps_around :
  int64_Counts overflow_example
  /\ sum_Count_where (Type_is "Enrolment")
       (df_filtered (Some "All India") overflow_example) = 2 ^ 63
  /\ total_enrol (df_filtered (Some "All India") overflow_example) = - 2 ^ 63
  /\ total_enrol (df_filtered (Some "All India") overflow_example)
     <> sum_Count_where (Type_is "Enrolment")
          (df_filtered (Some "All India") overflow_example).
Proof.
  split.
  { repeat constructor; eexists;
      (split; [reflexivity|unfold in_int64; lia]). }
  split; [reflexivity|]. split; [reflexivity|].
  vm_compute. discriminate.
Qed.

(** The two totals of the rows of two states, "Goa" selected, add up to
    the sum of the view. *)
Lemma totals_partition_on_example :
  (int64_Counts states_example)
  /\ (pd.wrap64 (total_enrol (df_filtered (Some "Goa") states_example)
             + total_updates (df_filtered (Some "Goa") states_example))
  = pd.sum (map (@Master.Count _) (df_filtered (Some "Goa") states_example))
  /\ pd.sum (map (@Master.Count _) (df_filtered (Some "Goa") states_example))
     = pd.wrap64 (sum_Count_where (fun _ => true)
                    (df_filtered (Some "Goa") states_example))
  /\ (in_int64 (sum_Count_where (Type_is "Enrolment")
                  (df_filtered (Some "Goa") states_example)) ->
      in_int64 (sum_Count_where (Type_is_not "Enrolment")
                  (df_filtered (Some "Goa") states_example)) ->
      total_enrol (df_filtered (Some "Goa") states_example)
      + total_updates (df_filtered (Some "Goa") states_example)
      = sum_Count_where (fun _ => true)
          (df_filtered (Some "Goa") states_example))
  /\ (forall r : Master.row ymd,
        pd.ne (Master.Type_ r) (Some "Enrolment")
        = negb (pd.eq (Master.Type_ r) (Some "Enrolment")))
  /\ Permutation
       (filter (fun r => pd.eq (Master.Type_ r) (Some "Enrolment"))
          (df_filtered (Some "Goa") states_example)
        ++ filter (fun r => pd.ne (Master.Type_ r) (Some "Enrolment"))
             (df_filtered (Some "Goa") states_example))
       (df_filtered (Some "Goa") states_example)).
Proof.
  assert (H0 : int64_Counts states_example).
  { repeat constructor; eexists; (split; [reflexivity|unfold in_int64; lia]). }
  split; [exact H0|].
  apply (@totals_partition ymd states_example (Some "Goa") H0).
Defined.

(** On a view whose Counts add up to more than int64 holds the two totals do
    not add up to the sum of Count over all rows: with the enrolments
    2^63 - 1 and 1 they add up to -2^63, the Counts to 2^63; with the
    enrolment 2^63 - 1 and the update 1 they add up to 2^63, and the sum of
    the column as the code adds it is -2^63. *)
Lemma totals_do_not_add_up_beyond_int64 :
  int64_Counts overflow_example
  /\ total_enrol (df_filtered (Some "All India") overflow_example)
     + total_updates (df_filtered (Some "All India") overflow_example)
     = - 2 ^ 63
  /\ sum_Count_where (fun _ => true)
       (df_filtered (Some "All India") overflow_example) = 2 ^ 63
  /\ int64_Counts overflow_two_sides_example
  /\ total_enrol (df_filtered (Some "All India") overflow_two_sides_example)
     + total_updates
         (df_filtered (Some "All India") overflow_two_sides_example)
     = 2 ^ 63
  /\ pd.sum (map (@Master.Count _)
               (df_filtered (Some "All India") overflow_two_sides_example))
     = - 2 ^ 63.
Proof.
  split.
  { repeat constructor; eexists;
      (split; [reflexivity|unfold in_int64; lia]). }
  split; [reflexivity|]. split; [reflexivity|].
  split.
  { repeat constructor; eexists;
      (split; [reflexivity|unfold in_int64; lia]). }
  split; reflexivity.
Qed.

(** The Migration Tracker on demographic updates in two districts. *)
Lemma top_districts_are_ten_largest_on_example :
  (migration_example <> [])
  /\ (int64_Counts migration_example)
  /\ (migration_tracker (Count_dtype migration_example)
    (df_filtered (Some "All India") migration_example) (@nil (element ymd Z))
  = (((@nil (element ymd Z)) ++
      [ title "🚚 Migration & Address Updates";
        subheader "Hotspots for Demographic Updates";
        plotly_chart
          (px_bar_h
             (top_districts
                (demo_data (df_filtered (Some "All India") migration_example)))
             "Count" "district"
             "Top 10 Districts for Demographic Updates" "Count" "Viridis");
        markdown "High volume in specific districts often correlates with **urban migration hubs** or **marriage migration**." ])%list,
     inr tt)
  /\ (forall r,
        In r (demo_data (df_filtered (Some "All India") migration_example))
        <-> In r (df_filtered (Some "All India") migration_example)
            /\ Master.Type_ r = Some "Update_Demographic")
  /\ (forall d c,
        In (d, c)
           (top_districts
              (demo_data (df_filtered (Some "All India") migration_example)))
        -> In d (districts
                   (demo_data (df_filtered (Some "All India") migration_example)))
           /\ c = pd.wrap64
                    (district_total d
                       (demo_data (df_filtered (Some "All India") migration_example))))
  /\ StronglySorted (@value_ge string)
       (top_districts (demo_data (df_filtered (Some "All India") migration_example)))
  /\ NoDup
       (map fst
          (top_districts
             (demo_data (df_filtered (Some "All India") migration_example))))
  /\ length
       (top_districts (demo_data (df_filtered (Some "All India") migration_example)))
     = Nat.min 10
         (length
            (nodup string_dec
               (districts
                  (demo_data (df_filtered (Some "All India") migration_example)))))
  /\ (forall d,
        In d (districts
                (demo_data (df_filtered (Some "All India") migration_example))) ->
        ~ In d (map fst
                  (top_districts
                     (demo_data (df_filtered (Some "All India") migration_example)))) ->
        forall d' c',
          In (d', c')
             (top_districts
                (demo_data (df_filtered (Some "All India") migration_example))) ->
          pd.wrap64
            (district_total d
               (demo_data (df_filtered (Some "All India") migration_example)))
          <= c')).
Proof.
  assert (H0 : migration_example <> []).
  { discriminate. }
  assert (H1 : int64_Counts migration_example).
  { repeat constructor; eexists; (split; [reflexivity|unfold in_int64; lia]). }
  split; [exact H0|].
  split; [exact H1|].
  apply (@top_districts_are_ten_largest ymd Z migration_example
           (Some "All India") [] H0 H1).
Defined.

(** On the master table of a file without rows the Count column is not
    numeric and the Migration Tracker charts nothing: the run ends with the
    TypeError of [nlargest] after the title and the subheader. *)
Lemma migration_tracker_raises_without_rows :
  load_master_data iso_date empty_files = inr []
  /\ load_forecast_data iso_date empty_files = inr []
  /\ picked pages 2 "1. Executive Summary" = "3. Migration Tracker (Where?)"
  /\ Count_dtype (@nil (Master.row ymd)) = pd.object
  /\ app ymd_compare iso_date empty_files 2 0 []
     = ((header ymd Z ++ sidebar Z []
         ++ [ title "🚚 Migration & Address Updates";
              subheader "Hotspots for Demographic Updates" ])%list,
        inl (TypeError "Cannot use method 'nlargest' with dtype object")).
Proof.
  split; [reflexivity|]. split; [reflexivity|]. split; [reflexivity|].
  split; reflexivity.
Qed.

(* ================================================================== *)
(** * Further properties of the script *)
(* ================================================================== *)

(** ** Grouped sums keep the total and forget the row order *)

Section MoreGroupByFacts.
Variable K : Type.
Variable compare : K -> K -> comparison.
Hypothesis compare_eq_iff : forall a b, compare a b = Eq <-> a = b.
Hypothesis compare_antisym : forall a b, compare b a = CompOpp (compare a b).
Hypothesis compare_trans :
  forall a b c, compare a b = Lt -> compare b c = Lt -> compare a c = Lt.

Lemma group_add_sum_values (k : K) (v : Z) (acc : list (K * Z)) :
  pd.wrap64 (sum_values (pd.group_add compare k v acc))
  = pd.wrap64 (v + sum_values acc).
Proof using Type.
  induction acc as [|[k' s] rest IH]; simpl; [reflexivity|].
  destruct (compare k k'); simpl.
  - rewrite wrap64_add_l. f_equal. lia.
  - reflexivity.
  - rewrite <- wrap64_add_r, IH, wrap64_add_r. f_equal. lia.
Qed.

Lemma groupby_from_sum_values (kvs : list (cell K * cell Z))
    (acc : list (K * Z)) :
  pd.wrap64 (sum_values (fold_left (pd.group_step compare) kvs acc))
  = pd.wrap64 (sum_values acc + keyed_total kvs).
Proof using Type.
  revert acc. induction kvs as [|[[k|] c] t IH]; intros acc; simpl.
  - f_equal. lia.
  - rewrite IH. unfold pd.group_step. cbn [fst snd].
    rewrite <- wrap64_add_l, group_add_sum_values, wrap64_add_l.
    rewrite sum_one.
    replace (pd.wrap64 (cell_value c) + sum_values acc + keyed_total t)
      with (pd.wrap64 (cell_value c) + (sum_values acc + keyed_total t))
      by lia.
    rewrite wrap64_add_l. f_equal. lia.
  - apply IH.
Qed.

Lemma groupby_sum_sum_values (kvs : list (cell K * cell Z)) :
  pd.wrap64 (sum_values (pd.groupby_sum compare kvs))
  = pd.wrap64 (keyed_total kvs).
Proof using Type.
  unfold pd.groupby_sum. rewrite groupby_from_sum_values. reflexivity.
Qed.







End MoreGroupByFacts.

(** ** The order of two-column keys *)

Section PairOrder.
Variables A B : Type.
Variable ca : A -> A -> comparison.
Variable cb : B -> B -> comparison.
Hypothesis ca_eq_iff : forall a b, ca a b = Eq <-> a = b.
Hypothesis ca_antisym : forall a b, ca b a = CompOpp (ca a b).
Hypothesis ca_trans :
  forall a b c, ca a b = Lt -> ca b c = Lt -> ca a c = Lt.
Hypothesis cb_eq_iff : forall a b, cb a b = Eq <-> a = b.
Hypothesis cb_antisym : forall a b, cb b a = CompOpp (cb a b).
Hypothesis cb_trans :
  forall a b c, cb a b = Lt -> cb b c = Lt -> cb a c = Lt.

Lemma compare_pair_eq_iff (x y : A * B) :
  pd.compare_pair ca cb x y = Eq <-> x = y.
Proof using ca_eq_iff cb_eq_iff.
  destruct x as [a b], y as [a' b']. unfold pd.compare_pair. simpl. split.
  - destruct (ca a a') eqn:E; try discriminate.
    intros H. apply ca_eq_iff in E. apply cb_eq_iff in H. congruence.
  - intros H. inversion H; subst.
    assert (E : ca a' a' = Eq) by (apply ca_eq_iff; reflexivity).
    rewrite E. apply cb_eq_iff. reflexivity.
Qed.

Lemma compare_pair_antisym (x y : A * B) :
  pd.compare_pair ca cb y x = CompOpp (pd.compare_pair ca cb x y).
Proof using ca_antisym cb_antisym.
  destruct x as [a b], y as [a' b']. unfold pd.compare_pair. simpl.
  rewrite (ca_antisym a a'). destruct (ca a a'); simpl; auto.
Qed.

Lemma compare_pair_trans (x y z : A * B) :
  pd.compare_pair ca cb x y = Lt -> pd.compare_pair ca cb y z = Lt ->
  pd.compare_pair ca cb x z = Lt.
Proof using ca_eq_iff ca_trans cb_trans.
  destruct x as [a b], y as [a' b'], z as [a'' b''].
  unfold pd.compare_pair. simpl.
  destruct (ca a a') eqn:E1; try discriminate;
    destruct (ca a' a'') eqn:E2; try discriminate; intros H1 H2.
  - apply ca_eq_iff in E1. apply ca_eq_iff in E2. subst.
    assert (E : ca a'' a'' = Eq) by (apply ca_eq_iff; reflexivity).
    rewrite E. eapply cb_trans; eassumption.
  - apply ca_eq_iff in E1. subst. rewrite E2. reflexivity.
  - apply ca_eq_iff in E2. subst. rewrite E1. reflexivity.
  - rewrite (ca_trans E1 E2). reflexivity.
Qed.

Lemma same_key_pair (a a' : A) (b b' : B) :
  same_key (pd.compare_pair ca cb) (a, b) (a', b')
  = same_key ca a a' && same_key cb b b'.
Proof using Type.
  unfold same_key, pd.compare_pair. simpl.
  destruct (ca a a'); destruct (cb b b'); reflexivity.
Qed.

End PairOrder.

Lemma Z_compare_antisym (a b : Z) : Z.compare b a = CompOpp (Z.compare a b).
Proof. apply Z.compare_antisym. Qed.

Lemma Z_compare_trans (a b c : Z) :
  Z.compare a b = Lt -> Z.compare b c = Lt -> Z.compare a c = Lt.
Proof.
  rewrite !Z.compare_lt_iff. lia.
Qed.

Lemma ymd_compare_eq_iff (a b : ymd) : ymd_compare a b = Eq <-> a = b.
Proof.
  apply compare_pair_eq_iff.
  - apply compare_pair_eq_iff; apply Z.compare_eq_iff.
  - apply Z.compare_eq_iff.
Qed.

Lemma ymd_compare_antisym (a b : ymd) :
  ymd_compare b a = CompOpp (ymd_compare a b).
Proof.
  apply compare_pair_antisym.
  - apply compare_pair_antisym; apply Z_compare_antisym.
  - apply Z_compare_antisym.
Qed.

Lemma ymd_compare_trans (a b c : ymd) :
  ymd_compare a b = Lt -> ymd_compare b c = Lt -> ymd_compare a c = Lt.
Proof.
  apply compare_pair_trans.
  - apply compare_pair_eq_iff; apply Z.compare_eq_iff.
  - apply compare_pair_trans;
      [apply Z.compare_eq_iff|apply Z_compare_trans|apply Z_compare_trans].
  - apply Z_compare_trans.
Qed.

Section MoreProperties.
Variable datetime : Type.
Variable datetime_compare : datetime -> datetime -> comparison.
Variable parse_datetime : string -> option datetime.
Variable num : Type.

Set Default Proof Using "Type".

Local Abbreviation master := (list (Master.row datetime)).
Local Abbreviation forecast := (list (Forecast.row datetime num)).

(** ** Rows grouped by a key *)

Section KeyedRows.
Variable K : Type.
Variable compare : K -> K -> comparison.
Variable key : Master.row datetime -> cell K.
Hypothesis compare_eq_iff : forall a b, compare a b = Eq <-> a = b.

Local Abbreviation keyed df :=
  (map (fun r : Master.row datetime => (key r, Master.Count r)) df).

Lemma has_key_keyed (k : K) (df : master) :
  has_key compare k (keyed df) = true
  <-> exists r, In r df /\ key r = Some k.
Proof using compare_eq_iff.
  induction df as [|r t IH]; simpl.
  - split; [discriminate|]. intros (r & [] & _).
  - destruct (key r) as [k0|] eqn:E.
    + rewrite orb_true_iff, IH, (same_key_iff compare compare_eq_iff). split.
      * intros [->|(r' & Hin & Hk)]; eauto.
      * intros (r' & [->|Hin] & Hk); [left; congruence|right; eauto].
    + rewrite IH. split.
      * intros (r' & Hin & Hk). eauto.
      * intros (r' & [->|Hin] & Hk); [congruence|eauto].
Qed.

Lemma total_of_keyed (k : K) (df : master) :
  total_of compare k (keyed df)
  = sum_Count_where
      (fun r => match key r with
                | Some k' => same_key compare k k'
                | None => false
                end) df.
Proof.
  induction df as [|r t IH]; simpl; [reflexivity|].
  unfold Count_value, cell_value.
  destruct (key r) as [k0|]; simpl; rewrite IH; reflexivity.
Qed.

Lemma keyed_total_keyed (df : master) :
  keyed_total (keyed df) = sum_Count_where (fun r => notna (key r)) df.
Proof.
  induction df as [|r t IH]; simpl; [reflexivity|].
  unfold Count_value, cell_value.
  destruct (key r) as [k0|]; simpl; rewrite IH; reflexivity.
Qed.

End KeyedRows.

Lemma same_key_string_dec (a b : string) :
  same_key String.compare a b
  = if cell_eq_dec (Some b) (Some a) then true else false.
Proof.
  destruct (cell_eq_dec (Some b) (Some a)) as [E|N].
  - inversion E. apply same_key_string. reflexivity.
  - destruct (same_key String.compare a b) eqn:S; [|reflexivity].
    apply same_key_string in S. subst. contradiction.
Qed.

Lemma notna_key2 A B (a : cell A) (b : cell B) :
  notna (pd.key2 a b) = notna a && notna b.
Proof. destruct a, b; reflexivity. Qed.

Lemma sum_Count_where_negb (f : Master.row datetime -> bool) (df : master) :
  sum_Count_where f df + sum_Count_where (fun r => negb (f r)) df
  = sum_Count_where (fun _ => true) df.
Proof.
  induction df as [|r t IH]; simpl; [reflexivity|].
  destruct (f r); simpl; lia.
Qed.

(** ** Executive Summary: what the trend chart adds up to *)

(** X12. On a view of a master table whose Count column is int64, the sums of
    the trend chart add up, in the arithmetic of int64, to the Count of the
    rows that carry both a date and a Type; with the Count of the rows that
    miss one of the two they make Total Enrolments plus Total Updates. *)
Theorem trend_data_adds_up (df_master df : master)
    (selected_state : cell string) :
  int64_Counts df_master ->
  df = df_filtered selected_state df_master ->
  pd.wrap64 (sum_values (trend_data datetime_compare df))
  = pd.wrap64
      (sum_Count_where
         (fun r => notna (Master.date r) && notna (Master.Type_ r)) df)
  /\ pd.wrap64
       (sum_values (trend_data datetime_compare df)
        + sum_Count_where
            (fun r => negb (notna (Master.date r) && notna (Master.Type_ r)))
            df)
     = pd.wrap64 (total_enrol df + total_updates df).
Proof.
  intros _ _.
  assert (E : pd.wrap64 (sum_values (trend_data datetime_compare df))
              = pd.wrap64
                  (sum_Count_where
                     (fun r => notna (Master.date r)
                               && notna (Master.Type_ r)) df)).
  { unfold trend_data. rewrite groupby_sum_sum_values.
    rewrite (keyed_total_keyed
               (fun r => pd.key2 (Master.date r) (Master.Type_ r)) df).
    f_equal. apply sum_Count_where_ext. intros r. apply notna_key2. }
  split; [exact E|].
  rewrite <- wrap64_add_l, E, wrap64_add_l, sum_Count_where_negb.
  rewrite total_enrol_where, total_updates_where.
  rewrite wrap64_add_l, wrap64_add_r, sum_Count_where_split.
  reflexivity.
Qed.

(** ** Demographics: the bars of the chart *)

Lemma pair_string_eq_iff (x y : string * string) :
  pd.compare_pair String.compare String.compare x y = Eq <-> x = y.
Proof. apply compare_pair_eq_iff; apply string_compare_eq_iff. Qed.

Lemma age_summary_sorted (df : master) :
  StronglySorted
    (key_lt (pd.compare_pair String.compare String.compare))
    (age_summary df).
Proof.
  apply groupby_sum_sorted.
  - apply pair_string_eq_iff.
  - apply compare_pair_antisym; apply string_compare_antisym.
  - apply compare_pair_trans;
      solve [apply string_compare_eq_iff | apply string_compare_trans].
Qed.

Lemma age_summary_In (t a : string) (v : Z) (df : master) :
  In ((t, a), v) (age_summary df)
  <-> (exists r, In r df /\ Master.Type_ r = Some t
                 /\ Master.Age_Group r = Some a)
      /\ v = pd.wrap64
               (sum_Count_where
                  (fun r => Type_is t r && Age_Group_is a r) df).
Proof.
  unfold age_summary. rewrite groupby_sum_In.
  - rewrite (has_key_keyed
               (pd.compare_pair String.compare String.compare)
               (fun r => pd.key2 (Master.Type_ r) (Master.Age_Group r))
               pair_string_eq_iff).
    rewrite (total_of_keyed
               (pd.compare_pair String.compare String.compare)
               (fun r => pd.key2 (Master.Type_ r) (Master.Age_Group r))).
    assert (S : sum_Count_where
                  (fun r =>
                     match pd.key2 (Master.Type_ r) (Master.Age_Group r) with
                     | Some k' =>
                         same_key
                           (pd.compare_pair String.compare String.compare)
                           (t, a) k'
                     | None => false
                     end) df
                = sum_Count_where
                    (fun r => Type_is t r && Age_Group_is a r) df).
    { apply sum_Count_where_ext. intros r. unfold Type_is, Age_Group_is.
      destruct (Master.Type_ r) as [t'|], (Master.Age_Group r) as [a'|];
        simpl.
      - rewrite same_key_pair, !same_key_string_dec. reflexivity.
      - destruct (cell_eq_dec (Some t') (Some t)); reflexivity.
      - destruct (cell_eq_dec None (Some t)); [discriminate|reflexivity].
      - destruct (cell_eq_dec None (Some t)); [discriminate|reflexivity]. }
    rewrite S. split; intros [(r & Hin & Hk) Hv]; (split; [|exact Hv]);
      exists r; (split; [exact Hin|]).
    + destruct (Master.Type_ r), (Master.Age_Group r); simpl in Hk;
        try discriminate. inversion Hk. auto.
    + destruct Hk as [-> ->]. reflexivity.
  - apply pair_string_eq_iff.
  - apply compare_pair_antisym; apply string_compare_antisym.
  - apply compare_pair_trans;
      solve [apply string_compare_eq_iff | apply string_compare_trans].
Qed.

(** X14. On a view of a master table whose Count column is int64, the
    Demographics chart has one bar for each pair of a Type and an Age_Group
    that some row carries, with the Count of the rows of that pair summed as
    int64 addition sums them (the sum itself when it is in the range of
    int64); the bars come in ascending order of (Type, Age_Group), no pair
    twice; rows that miss their Type or their Age_Group are in no bar, and
    the bars add up, in the arithmetic of int64, to the Count of the other
    rows. *)
Theorem age_summary_bars (df_master df : master)
    (selected_state : cell string) :
  int64_Counts df_master ->
  df = df_filtered selected_state df_master ->
  (forall t a v,
     In ((t, a), v) (age_summary df)
     <-> (exists r, In r df /\ Master.Type_ r = Some t
                    /\ Master.Age_Group r = Some a)
         /\ v = pd.wrap64
                  (sum_Count_where
                     (fun r => Type_is t r && Age_Group_is a r) df))
  /\ (forall t a v,
        In ((t, a), v) (age_summary df) ->
        in_int64 (sum_Count_where
                    (fun r => Type_is t r && Age_Group_is a r) df) ->
        v = sum_Count_where (fun r => Type_is t r && Age_Group_is a r) df)
  /\ StronglySorted
       (key_lt (pd.compare_pair String.compare String.compare))
       (age_summary df)
  /\ NoDup (map fst (age_summary df))
  /\ pd.wrap64 (sum_values (age_summary df))
     = pd.wrap64
         (sum_Count_where
            (fun r => notna (Master.Type_ r) && notna (Master.Age_Group r))
            df).
Proof.
  intros _ _.
  split; [intros t a v; apply age_summary_In|].
  split.
  { intros t a v Hin Hrange. apply age_summary_In in Hin.
    destruct Hin as [_ ->]. apply wrap64_small, Hrange. }
  split; [apply age_summary_sorted|].
  split.
  - apply sorted_NoDup_keys
      with (compare := pd.compare_pair String.compare String.compare).
    + apply pair_string_eq_iff.
    + apply age_summary_sorted.
  - unfold age_summary. rewrite groupby_sum_sum_values.
    rewrite (keyed_total_keyed
               (fun r => pd.key2 (Master.Type_ r) (Master.Age_Group r)) df).
    f_equal. apply sum_Count_where_ext. intros r. apply notna_key2.
Qed.

(** ** Executive Summary: the points of the trend chart *)

(** X13. On a view of a master table whose Count column is int64, and when the
    order on timestamps is a strict total order, the trend chart has one
    point for each pair of a date and a Type that some row carries, with the
    Count of the rows of that date and Type summed as int64 addition sums
    them (the sum itself when it is in the range of int64); the points come
    in ascending order of (date, Type), no pair twice. *)
Theorem trend_data_points (df_master df : master)
    (selected_state : cell string) :
  int64_Counts df_master ->
  df = df_filtered selected_state df_master ->
  (forall a b, datetime_compare a b = Eq <-> a = b) ->
  (forall a b, datetime_compare b a = CompOpp (datetime_compare a b)) ->
  (forall a b c, datetime_compare a b = Lt -> datetime_compare b c = Lt ->
                 datetime_compare a c = Lt) ->
  (forall d t v,
     In ((d, t), v) (trend_data datetime_compare df)
     <-> (exists r, In r df /\ Master.date r = Some d
                    /\ Master.Type_ r = Some t)
         /\ v = pd.wrap64
                  (sum_Count_where
                     (fun r => date_is datetime_compare d r && Type_is t r)
                     df))
  /\ (forall d t v,
        In ((d, t), v) (trend_data datetime_compare df) ->
        in_int64 (sum_Count_where
                    (fun r => date_is datetime_compare d r && Type_is t r)
                    df) ->
        v = sum_Count_where
              (fun r => date_is datetime_compare d r && Type_is t r) df)
  /\ (forall d r, date_is datetime_compare d r = true
                  <-> Master.date r = Some d)
  /\ StronglySorted
       (key_lt (pd.compare_pair datetime_compare String.compare))
       (trend_data datetime_compare df)
  /\ NoDup (map fst (trend_data datetime_compare df)).
Proof.
  intros _ _ Heq Hanti Htrans.
  assert (Peq : forall x y : datetime * string,
             pd.compare_pair datetime_compare String.compare x y = Eq
             <-> x = y).
  { intros x y. apply compare_pair_eq_iff;
      [apply Heq|apply string_compare_eq_iff]. }
  assert (Panti : forall x y : datetime * string,
             pd.compare_pair datetime_compare String.compare y x
             = CompOpp (pd.compare_pair datetime_compare String.compare x y)).
  { intros x y. apply compare_pair_antisym;
      [apply Hanti|apply string_compare_antisym]. }
  assert (Ptrans : forall x y z : datetime * string,
             pd.compare_pair datetime_compare String.compare x y = Lt ->
             pd.compare_pair datetime_compare String.compare y z = Lt ->
             pd.compare_pair datetime_compare String.compare x z = Lt).
  { intros x y z. apply compare_pair_trans;
      [apply Heq|apply Htrans|apply string_compare_trans]. }
  assert (Sorted_trend :
            StronglySorted
              (key_lt (pd.compare_pair datetime_compare String.compare))
              (trend_data datetime_compare df)).
  { apply groupby_sum_sorted; assumption. }
  assert (Points : forall d t v,
             In ((d, t), v) (trend_data datetime_compare df)
             <-> (exists r, In r df /\ Master.date r = Some d
                            /\ Master.Type_ r = Some t)
                 /\ v = pd.wrap64
                          (sum_Count_where
                             (fun r => date_is datetime_compare d r
                                       && Type_is t r) df)).
  { intros d t v. unfold trend_data.
    rewrite groupby_sum_In by assumption.
    rewrite (has_key_keyed
               (pd.compare_pair datetime_compare String.compare)
               (fun r => pd.key2 (Master.date r) (Master.Type_ r)) Peq).
    rewrite (total_of_keyed
               (pd.compare_pair datetime_compare String.compare)
               (fun r => pd.key2 (Master.date r) (Master.Type_ r))).
    assert (S : sum_Count_where
                  (fun r =>
                     match pd.key2 (Master.date r) (Master.Type_ r) with
                     | Some k' =>
                         same_key
                           (pd.compare_pair datetime_compare String.compare)
                           (d, t) k'
                     | None => false
                     end) df
                = sum_Count_where
                    (fun r => date_is datetime_compare d r && Type_is t r)
                    df).
    { apply sum_Count_where_ext. intros r. unfold date_is, Type_is.
      destruct (Master.date r) as [d'|], (Master.Type_ r) as [t'|]; simpl.
      - rewrite same_key_pair, same_key_string_dec. reflexivity.
      - destruct (cell_eq_dec None (Some t)); [discriminate|].
        rewrite andb_false_r. reflexivity.
      - reflexivity.
      - reflexivity. }
    rewrite S. split; intros [(r & Hin & Hk) Hv]; (split; [|exact Hv]);
      exists r; (split; [exact Hin|]).
    + destruct (Master.date r), (Master.Type_ r); simpl in Hk;
        try discriminate. inversion Hk. auto.
    + destruct Hk as [-> ->]. reflexivity. }
  split; [exact Points|].
  split; [|split; [|split]].
  - intros d t v Hin Hrange. apply Points in Hin.
    destruct Hin as [_ ->]. apply wrap64_small, Hrange.
  - intros d r. unfold date_is. destruct (Master.date r) as [d'|].
    + rewrite (same_key_iff datetime_compare Heq). split; congruence.
    + split; discriminate.
  - exact Sorted_trend.
  - apply sorted_NoDup_keys
      with (compare := pd.compare_pair datetime_compare String.compare);
      assumption.
Qed.

(** ** The grouped tables do not depend on the order of the rows *)



(** ** Executive Summary: when there is a top district, and which *)

(** X10. On a view of a master table whose Count column is int64, the
    top-district computation raises exactly when no row of the view names a
    district, and then with the empty-reduction error; otherwise it returns
    [d] exactly when [d] is a district of the view whose summed Count, as
    int64 addition gives it, is maximal and that is least in string order
    among the districts with that sum. *)
Theorem top_district_characterized (df_master df : master)
    (selected_state : cell string) :
  int64_Counts df_master ->
  df = df_filtered selected_state df_master ->
  (top_district df
   = inl (ValueError "attempt to get argmax of an empty sequence")
   <-> districts df = [])
  /\ (forall e, top_district df = inl e ->
        e = ValueError "attempt to get argmax of an empty sequence")
  /\ (forall d,
        top_district df = inr d
        <-> In d (districts df)
            /\ (forall d', In d' (districts df) ->
                           pd.wrap64 (district_total d' df)
                           <= pd.wrap64 (district_total d df))
            /\ (forall d', In d' (districts df) ->
                           pd.wrap64 (district_total d' df)
                           = pd.wrap64 (district_total d df) ->
                           String.leb d d' = true)).
Proof.
  intros _ _.
  destruct (top_district_cases df)
    as [[Hnil Hraise]|(d0 & Hd0 & Hin0 & Hmax0 & Hleast0)].
  - rewrite Hraise, Hnil. split; [split; reflexivity|].
    split; [intros e H; congruence|].
    intros d. split; [discriminate|]. intros [[] _].
  - rewrite Hd0. split; [|split].
    + split; [discriminate|]. intros H. rewrite H in Hin0. destruct Hin0.
    + intros e H. discriminate.
    + intros d. split.
      * intros H. injection H as <-. split; [exact Hin0|].
        split; [exact Hmax0|].
        intros d' Hd' He. apply string_leb_of_lt. apply Hleast0; assumption.
      * intros (Hin & Hmax & Hleast). f_equal.
        assert (E : pd.wrap64 (district_total d df)
                    = pd.wrap64 (district_total d0 df)).
        { pose proof (Hmax d0 Hin0). pose proof (Hmax0 d Hin). lia. }
        apply String.leb_antisym.
        -- apply string_leb_of_lt. apply Hleast0; [exact Hin|exact E].
        -- apply Hleast; [exact Hin0|symmetry; exact E].
Qed.

(** ** Loading the master table *)

Lemma to_datetime_bad_cell (s : list (cell string)) :
  Exists (fun c => exists x, c = Some x /\ parse_datetime x = None) s ->
  pd.to_datetime parse_datetime s
  = inl (ValueError "Unknown datetime string format").
Proof using Type.
  induction s as [|c t IH]; intros H; [inversion H|]. simpl.
  destruct c as [x|]; simpl.
  - destruct (parse_datetime x) as [d|] eqn:Ep; [|reflexivity].
    inversion H as [? ? (y & Hy & Hp)|? ? Ht]; subst.
    + inversion Hy; subst. congruence.
    + rewrite (IH Ht). reflexivity.
  - inversion H as [? ? (y & Hy & Hp)|? ? Ht]; subst; [discriminate|].
    rewrite (IH Ht). reflexivity.
Qed.

Lemma to_datetime_raised (s : list (cell string)) (e : exn) :
  pd.to_datetime parse_datetime s = inl e ->
  e = ValueError "Unknown datetime string format"
  /\ Exists (fun c => exists x, c = Some x /\ parse_datetime x = None) s.
Proof using Type.
  revert e. induction s as [|c t IH]; intros e; simpl; [discriminate|].
  destruct c as [x|]; simpl.
  - destruct (parse_datetime x) as [d|] eqn:Ep.
    + destruct (pd.to_datetime parse_datetime t) as [e'|ds];
        [|discriminate].
      intros H. injection H as <-.
      destruct (IH e' eq_refl) as [He Hex]. split; [exact He|].
      apply Exists_cons_tl. exact Hex.
    + intros H. injection H as <-. split; [reflexivity|].
      apply Exists_cons_hd. eauto.
  - destruct (pd.to_datetime parse_datetime t) as [e'|ds]; [|discriminate].
    intros H. injection H as <-.
    destruct (IH e' eq_refl) as [He Hex]. split; [exact He|].
    apply Exists_cons_tl. exact Hex.
Qed.

Lemma to_datetime_raises (s : list (cell string)) (e : exn) :
  pd.to_datetime parse_datetime s = inl e
  <-> e = ValueError "Unknown datetime string format"
      /\ Exists (fun c => exists x, c = Some x /\ parse_datetime x = None) s.
Proof using Type.
  split; [apply to_datetime_raised|].
  intros [-> H]. apply to_datetime_bad_cell. exact H.
Qed.

Lemma set_date_Forall2 (raw : list (Master.row string))
    (dates : list (cell datetime)) (df : master) :
  Forall2 (fun c d => pd.to_datetime_cell parse_datetime c = inr d)
    (map (@Master.date string) raw) dates ->
  (df = set_date raw dates <-> Forall2 (loaded_row parse_datetime) raw df).
Proof using Type.
  unfold set_date. revert dates df.
  induction raw as [|r0 t IH]; intros dates df H; simpl in *.
  - inversion H; subst. split.
    + intros ->. constructor.
    + intros F. inversion F. reflexivity.
  - inversion H as [|c d cs ds Hc Ht]; subst. simpl. split.
    + intros ->. constructor.
      * unfold loaded_row. simpl. repeat (split; [reflexivity|]).
        unfold pd.to_datetime_cell in Hc.
        destruct (Master.date r0) as [s|].
        -- destruct (parse_datetime s) as [d'|]; [|discriminate].
           inversion Hc; subst. eauto.
        -- inversion Hc. reflexivity.
      * apply (IH ds); [assumption|reflexivity].
    + intros F. inversion F as [|r0' r t' rs Hr Ft]; subst.
      apply (IH ds) in Ft; [|assumption]. rewrite <- Ft. f_equal.
      destruct r as [dt st di ty ag co].
      destruct Hr as (Hst & Hdi & Hty & Hag & Hco & Hdt). simpl in *.
      subst. f_equal.
      unfold pd.to_datetime_cell in Hc.
      destruct (Master.date r0) as [s|].
      * destruct Hdt as (d' & Hp & Hd). rewrite Hp in Hc. congruence.
      * congruence.
Qed.

Lemma load_master_data_unfold (fs : Files num) :
  load_master_data parse_datetime fs =
  match master_uidai_data_cleaned_csv fs with
  | None => inl (FileNotFoundError "master_uidai_data_cleaned.csv")
  | Some raw =>
      match pd.to_datetime parse_datetime (map (@Master.date string) raw) with
      | inl e => inl e
      | inr dates => inr (set_date raw dates)
      end
  end.
Proof using Type.
  unfold load_master_data.
  destruct (master_uidai_data_cleaned_csv fs); reflexivity.
Qed.

(** X1. When the master table loads, its rows are the rows of the file, in
    order, every column but the date as it was read and a missing date still
    missing.  Loading raises FileNotFoundError exactly when the file is
    missing. *)
Theorem load_master_data_keeps_rows (fs : Files num) :
  (forall df : master,
     load_master_data parse_datetime fs = inr df ->
     exists raw,
       master_uidai_data_cleaned_csv fs = Some raw
       /\ Forall2 (kept_but_date (datetime := datetime)) raw df)
  /\ (load_master_data parse_datetime fs
      = inl (FileNotFoundError "master_uidai_data_cleaned.csv")
      <-> master_uidai_data_cleaned_csv fs = None).
Proof.
  rewrite load_master_data_unfold.
  destruct (master_uidai_data_cleaned_csv fs) as [raw|].
  - destruct (pd.to_datetime parse_datetime (map (@Master.date string) raw))
      as [e|dates] eqn:Et.
    + apply to_datetime_raises in Et. destruct Et as [-> _].
      split; [discriminate|]. split; discriminate.
    + apply to_datetime_Forall2 in Et.
      split; [|split; discriminate].
      intros df H. exists raw. split; [reflexivity|].
      assert (F : Forall2 (loaded_row parse_datetime) raw df).
      { apply (@set_date_Forall2 raw dates df Et). congruence. }
      clear - F. induction F as [|a b l l' Hab _ IH]; constructor; [|exact IH].
      destruct Hab as (Hs & Hd & Ht & Ha & Hc & Hdate).
      unfold kept_but_date. repeat (split; [assumption|]).
      intros E. rewrite E in Hdate. exact Hdate.
  - split; [discriminate|]. split; reflexivity.
Qed.

(** ** The load boundary *)

(** X3. When the master file is missing, or the master table loads and the
    forecast file is missing, the run is recovered: it shows the error
    message, the navigation and "Waiting for data...", no state filter and
    no view, and it ends normally, whatever the user picked. *)
Theorem missing_file_is_recovered (fs : Files num) (nav choice : nat) :
  master_uidai_data_cleaned_csv fs = None
  \/ ((exists df_master : master,
         load_master_data parse_datetime fs = inr df_master)
      /\ forecast_data_csv fs = None) ->
  app datetime_compare parse_datetime fs nav choice []
  = (waiting_page datetime num, inr tt).
Proof.
  intros H. rewrite app_run, load_run.
  destruct H as [Hm|[(df_master & Hm) Hf]].
  - rewrite load_master_data_unfold, Hm. reflexivity.
  - rewrite Hm, load_forecast_data_eq, Hf. reflexivity.
Qed.

(** X4. A date that does not parse is not recovered.  When the master file has
    such a date the run ends with the ValueError right after the page
    set-up, even if the forecast file is missing; when the master table
    loads and the forecast file has a date column and such a date among its
    first non-null dates, the run ends the same way. *)
Theorem bad_date_is_not_recovered (fs : Files num) (nav choice : nat) :
  (exists raw,
     master_uidai_data_cleaned_csv fs = Some raw
     /\ Exists (fun r => exists s, Master.date r = Some s
                                   /\ parse_datetime s = None) raw)
  \/ ((exists df_master : master,
         load_master_data parse_datetime fs = inr df_master)
      /\ exists df,
           forecast_data_csv fs = Some df
           /\ has_date_column df = true
           /\ Exists (fun raw => exists s, first_non_null df raw = Some s
                                           /\ parse_datetime s = None)
                (Forecast.rows df)) ->
  app datetime_compare parse_datetime fs nav choice []
  = (header datetime num,
     inl (ValueError "Unknown datetime string format")).
Proof.
  intros H. rewrite app_run, load_run.
  destruct H as [(raw & Hm & Hex)|[(df_master & Hm) (df & Hf & Hc & Hex)]].
  - rewrite load_master_data_unfold, Hm.
    rewrite to_datetime_bad_cell; [reflexivity|].
    apply Exists_exists in Hex. destruct Hex as (r & Hin & s & Hs & Hp).
    apply Exists_exists. exists (Some s). split; [|eauto].
    apply in_map_iff. eauto.
  - rewrite Hm, load_forecast_data_eq, Hf, Hc.
    rewrite to_datetime_bad_cell; [reflexivity|].
    apply Exists_exists in Hex. destruct Hex as (r & Hin & s & Hs & Hp).
    apply Exists_exists. exists (Some s). split; [|eauto].
    apply in_map_iff. eauto.
Qed.

(** ** The Demographics page, step by step, and the page picked *)

Lemma demographics_run (df : master) (page0 : list (element datetime num)) :
  demographics df page0
  = ((page0 ++
      [ title "👥 Demographic Analysis";
        columns 2;
        in_column 1 (subheader "The Compliance Check");
        in_column 1
          (plotly_chart
             (px_bar (age_summary df) "Type" "Count" "Age_Group"
                "Who is accessing which service?" "group"));
        in_column 2 (subheader "Data Story");
        in_column 2 (info data_story) ])%list,
     inr tt).
Proof.
  unfold demographics, emit. cbn [bind ret St_Monad].
  repeat rewrite <- app_assoc. reflexivity.
Qed.

Lemma picked_pages (nav : nat) :
  In (picked pages nav "1. Executive Summary") pages.
Proof.
  unfold picked, pages.
  destruct nav as [|[|[|[|n]]]]; simpl; auto.
  destruct n; simpl; auto.
Qed.

(** ** The state filter of the sidebar *)

Lemma cell_same_iff (a b : cell string) : pd.cell_same a b = true <-> a = b.
Proof.
  destruct a as [x|], b as [y|]; simpl; split; try discriminate;
    try reflexivity.
  - intros H. apply String.eqb_eq in H. congruence.
  - intros H. inversion H. apply String.eqb_refl.
Qed.

Lemma seen_iff (c : cell string) (seen : list (cell string)) :
  existsb (pd.cell_same c) seen = true <-> In c seen.
Proof.
  rewrite existsb_exists. split.
  - intros (x & Hin & H). apply cell_same_iff in H. congruence.
  - intros H. exists c. split; [exact H|]. apply cell_same_iff. reflexivity.
Qed.

Lemma unique_from_In (c : cell string) (s seen : list (cell string)) :
  In c (pd.unique_from seen s) <-> In c s /\ ~ In c seen.
Proof.
  revert seen. induction s as [|x t IH]; intros seen; simpl.
  - split; [contradiction|]. intros [[] _].
  - destruct (existsb (pd.cell_same x) seen) eqn:E.
    + apply seen_iff in E. rewrite IH. split.
      * intros [H1 H2]. auto.
      * intros [[->|H1] H2]; [contradiction|auto].
    + assert (N : ~ In x seen).
      { intros H. apply seen_iff in H. congruence. }
      simpl. rewrite IH. simpl. split.
      * intros [->|[H1 H2]]; [auto|]. split; [auto|]. intros H. apply H2. auto.
      * intros [[->|H1] H2]; [auto|].
        destruct (cell_eq_dec x c) as [->|Ne]; [auto|].
        right. split; [exact H1|]. intros [H|H]; [contradiction|contradiction].
Qed.

Lemma unique_from_NoDup (s seen : list (cell string)) :
  NoDup (pd.unique_from seen s).
Proof.
  revert seen. induction s as [|x t IH]; intros seen; simpl.
  - constructor.
  - destruct (existsb (pd.cell_same x) seen); [apply IH|].
    constructor; [|apply IH].
    intros H. apply unique_from_In in H. destruct H as [_ H].
    apply H. left. reflexivity.
Qed.

Lemma unique_In (c : cell string) (s : list (cell string)) :
  In c (pd.unique s) <-> In c s.
Proof.
  unfold pd.unique. rewrite unique_from_In. simpl. split; [intros [H _]|];
    auto.
Qed.

Lemma picked_In A (options : list A) (index : nat) (first : A) :
  In first options -> In (picked options index first) options.
Proof.
  intros H. unfold picked.
  destruct (Nat.lt_ge_cases index (length options)) as [L|G].
  - apply nth_In. exact L.
  - rewrite nth_overflow by exact G. exact H.
Qed.

(** X7. The select box offers "All India" first, then every state cell of the
    master table once; what the user picks is always one of the offers, and
    the first offer is "All India". *)
Theorem state_options_offers (df_master : master) (choice : nat) :
  NoDup (pd.unique (map (@Master.state _) df_master))
  /\ (forall c, In c (state_options df_master)
                <-> c = Some "All India"
                    \/ exists r, In r df_master /\ Master.state r = c)
  /\ In (picked (state_options df_master) choice (Some "All India"))
        (state_options df_master)
  /\ picked (state_options df_master) 0 (Some "All India")
     = Some "All India".
Proof.
  split; [apply unique_from_NoDup|]. split; [|split; [|reflexivity]].
  - intros c. unfold state_options. simpl. rewrite unique_In, in_map_iff.
    split.
    + intros [<-|(r & E & Hin)]; [left; reflexivity|right; eauto].
    + intros [->|(r & Hin & E)]; [left; reflexivity|right; eauto].
  - apply picked_In. left. reflexivity.
Qed.

Lemma df_filtered_other (o : cell string) (df_master : master) :
  o <> Some "All India" ->
  df_filtered o df_master
  = filter (fun r => pd.eq (Master.state r) o) df_master.
Proof.
  intros H. unfold df_filtered, pd.ne.
  destruct (pd.eq o (Some "All India")) eqn:E; [|reflexivity].
  apply pd_eq_Some in E. contradiction.
Qed.

(** X8. A state picked from the offers, other than "All India", always has
    rows: its view is not empty. *)
Theorem offered_state_has_rows (df_master : master) (choice : nat)
    (s : string) :
  picked (state_options df_master) choice (Some "All India") = Some s ->
  s <> "All India" ->
  df_filtered (Some s) df_master <> []
  /\ exists r, In r (df_filtered (Some s) df_master)
               /\ In r df_master /\ Master.state r = Some s.
Proof.
  intros Hp Hs.
  assert (Hin : In (Some s) (state_options df_master)).
  { rewrite <- Hp. apply picked_In. left. reflexivity. }
  unfold state_options in Hin. simpl in Hin.
  destruct Hin as [E|Hin]; [congruence|].
  apply unique_In, in_map_iff in Hin. destruct Hin as (r & E & Hin).
  assert (Hv : In r (df_filtered (Some s) df_master)).
  { rewrite df_filtered_state by exact Hs.
    apply filter_In. split; [exact Hin|]. apply pd_eq_Some. exact E. }
  split; [|eauto].
  intros N. rewrite N in Hv. destruct Hv.
Qed.

(** X11. With a state selected, the Highest Traffic District is a district of a
    row of that state, and every district charted by the Migration Tracker
    is the district of an Update_Demographic row of that state. *)
Theorem views_stay_in_selected_state (df_master : master) (s : string) :
  s <> "All India" ->
  (forall d, top_district (df_filtered (Some s) df_master) = inr d ->
     exists r, In r df_master /\ Master.state r = Some s
               /\ Master.district r = Some d)
  /\ (forall d c,
        In (d, c)
           (top_districts (demo_data (df_filtered (Some s) df_master))) ->
        exists r, In r df_master /\ Master.state r = Some s
                  /\ Master.Type_ r = Some "Update_Demographic"
                  /\ Master.district r = Some d).
Proof.
  intros Hs. rewrite df_filtered_state by exact Hs. split.
  - intros d Hd.
    destruct (top_district_cases
                (filter (fun r => pd.eq (Master.state r) (Some s)) df_master))
      as [[_ Hraise]|(d0 & Hd0 & Hin & _)]; [congruence|].
    assert (d0 = d) by congruence. subst d0.
    apply districts_In in Hin. destruct Hin as (r & Hr & Hdist).
    apply filter_In in Hr. destruct Hr as [Hr Hst].
    apply pd_eq_Some in Hst. eauto.
  - intros d c Hin. unfold top_districts, pd.nlargest in Hin.
    apply firstn_In in Hin.
    apply (Permutation_in _ (sort_desc_perm _)) in Hin.
    apply district_sums_In in Hin. destruct Hin as [Hin _].
    apply districts_In in Hin. destruct Hin as (r & Hr & Hdist).
    unfold demo_data in Hr. apply filter_In in Hr. destruct Hr as [Hr Hty].
    apply filter_In in Hr. destruct Hr as [Hr Hst].
    apply pd_eq_Some in Hst. apply pd_eq_Some in Hty. eauto 6.
Qed.

(** ** The state views add up *)

Lemma sum_over_add A (f g : A -> Z) (l : list A) :
  sum_over (fun a => f a + g a) l = sum_over f l + sum_over g l.
Proof.
  induction l as [|a t IH]; simpl; [reflexivity|]. rewrite IH. lia.
Qed.

Lemma sum_over_ext A (f g : A -> Z) (l : list A) :
  (forall a, In a l -> f a = g a) -> sum_over f l = sum_over g l.
Proof.
  induction l as [|a t IH]; intros H; simpl; [reflexivity|].
  rewrite (H a) by (left; reflexivity). rewrite IH; [reflexivity|].
  intros b Hb. apply H. right. exact Hb.
Qed.

Lemma sum_over_zero A (l : list A) : sum_over (fun _ => 0) l = 0.
Proof. induction l as [|a t IH]; simpl; [reflexivity|]. rewrite IH. lia. Qed.

Lemma sum_over_cons A (f : A -> Z) (a : A) (l : list A) :
  sum_over f (a :: l) = f a + sum_over f l.
Proof. reflexivity. Qed.

Lemma sum_over_one_state (x : cell string) (c : Z)
    (options : list (cell string)) :
  NoDup options -> (notna x = true -> In x options) ->
  sum_over (fun o => if pd.eq x o then c else 0) options
  = if notna x then c else 0.
Proof.
  destruct x as [s|]; cbn [notna isna negb].
  - intros Hnd Hin. specialize (Hin eq_refl).
    induction Hnd as [|o t Hno Hnd IH]; [destruct Hin|].
    rewrite sum_over_cons.
    destruct Hin as [->|Hin].
    + assert (R : pd.eq (Some s) (Some s) = true)
        by (apply pd_eq_Some; reflexivity).
      rewrite R.
      rewrite (sum_over_ext (fun o => if pd.eq (Some s) o then c else 0)
                 (fun _ => 0)).
      * rewrite sum_over_zero. lia.
      * intros o Ho. destruct (pd.eq (Some s) o) eqn:E; [|reflexivity].
        apply pd_eq_iff in E. destruct E as (s' & E1 & E2).
        inversion E1; subst. contradiction.
    + rewrite (IH Hin).
      destruct (pd.eq (Some s) o) eqn:E; [|lia].
      apply pd_eq_iff in E. destruct E as (s' & E1 & E2).
      inversion E1; subst. contradiction.
  - intros _ _. apply sum_over_zero.
Qed.

Lemma sum_Count_where_filter (f g : Master.row datetime -> bool)
    (df : master) :
  sum_Count_where f (filter g df)
  = sum_Count_where (fun r => f r && g r) df.
Proof.
  induction df as [|r t IH]; simpl; [reflexivity|].
  destruct (g r); simpl; rewrite IH.
  - rewrite andb_true_r. reflexivity.
  - rewrite andb_false_r. reflexivity.
Qed.

Lemma sum_over_states (f : Master.row datetime -> bool) (df : master)
    (options : list (cell string)) :
  NoDup options ->
  (forall r, In r df -> notna (Master.state r) = true ->
             In (Master.state r) options) ->
  sum_over
    (fun o => sum_Count_where (fun r => f r && pd.eq (Master.state r) o) df)
    options
  = sum_Count_where (fun r => f r && notna (Master.state r)) df.
Proof.
  intros Hnd. induction df as [|r t IH]; intros Hin; simpl.
  - apply sum_over_zero.
  - rewrite sum_over_add.
    rewrite IH
      by (intros r' Hr' Hn; apply Hin; [right; exact Hr'|exact Hn]).
    f_equal.
    destruct (f r); simpl.
    + apply sum_over_one_state; [exact Hnd|].
      apply Hin. left. reflexivity.
    + apply sum_over_zero.
Qed.

Lemma sum_over_wrap64 A (f : A -> Z) (l : list A) :
  pd.wrap64 (sum_over (fun a => pd.wrap64 (f a)) l)
  = pd.wrap64 (sum_over f l).
Proof.
  induction l as [|a t IH]; simpl; [reflexivity|].
  rewrite wrap64_add_l, <- wrap64_add_r, IH, wrap64_add_r. reflexivity.
Qed.

Lemma state_views_total (f : Master.row datetime -> bool)
    (df_master : master) :
  (forall r, In r df_master -> Master.state r <> Some "All India") ->
  pd.wrap64
    (sum_over
       (fun o => pd.wrap64 (sum_Count_where f (df_filtered o df_master)))
       (pd.unique (map (@Master.state _) df_master)))
  = pd.wrap64
      (sum_Count_where (fun r => f r && notna (Master.state r)) df_master).
Proof.
  intros Hno.
  assert (Hopt : forall o,
             In o (pd.unique (map (@Master.state _) df_master)) ->
             o <> Some "All India").
  { intros o Ho. apply unique_In, in_map_iff in Ho.
    destruct Ho as (r & E & Hin). rewrite <- E. apply Hno. exact Hin. }
  assert (Hall : forall r, In r df_master ->
             notna (Master.state r) = true ->
             In (Master.state r)
                (pd.unique (map (@Master.state _) df_master))).
  { intros r Hin _. apply unique_In, in_map. exact Hin. }
  rewrite sum_over_wrap64.
  rewrite <- (sum_over_states f df_master (unique_from_NoDup _ _) Hall).
  f_equal. apply sum_over_ext. intros o Ho.
  rewrite (df_filtered_other df_master (Hopt o Ho)).
  apply sum_Count_where_filter.
Qed.

Lemma sum_Count_where_by_state (f : Master.row datetime -> bool)
    (df : master) :
  sum_Count_where (fun r => f r && notna (Master.state r)) df
  + sum_Count_where (fun r => f r && isna (Master.state r)) df
  = sum_Count_where f df.
Proof.
  induction df as [|r t IH]; simpl; [reflexivity|].
  rewrite <- IH.
  unfold notna. destruct (f r), (isna (Master.state r)); simpl; lia.
Qed.

(** X9. On a master table whose Count column is int64 and in which no row has
    a state literally named "All India", the totals of the Executive Summary
    over the views of all the offered states add up, in the arithmetic of
    int64, to the totals of the rows that have a state: no row is counted
    in two state views.  With the rows that have no state they make up the
    totals of the unfiltered table. *)
Theorem state_views_add_up (df_master : master) :
  int64_Counts df_master ->
  (forall r, In r df_master -> Master.state r <> Some "All India") ->
  pd.wrap64
    (sum_over (fun o => total_enrol (df_filtered o df_master))
       (pd.unique (map (@Master.state _) df_master)))
  = pd.wrap64
      (sum_Count_where
         (fun r => Type_is "Enrolment" r && notna (Master.state r))
         df_master)
  /\ pd.wrap64
       (sum_over (fun o => total_updates (df_filtered o df_master))
          (pd.unique (map (@Master.state _) df_master)))
     = pd.wrap64
         (sum_Count_where
            (fun r => Type_is_not "Enrolment" r && notna (Master.state r))
            df_master)
  /\ pd.wrap64
       (sum_over (fun o => total_enrol (df_filtered o df_master))
          (pd.unique (map (@Master.state _) df_master))
        + sum_Count_where
            (fun r => Type_is "Enrolment" r && isna (Master.state r))
            df_master)
     = total_enrol (df_filtered (Some "All India") df_master)
  /\ pd.wrap64
       (sum_over (fun o => total_updates (df_filtered o df_master))
          (pd.unique (map (@Master.state _) df_master))
        + sum_Count_where
            (fun r => Type_is_not "Enrolment" r && isna (Master.state r))
            df_master)
     = total_updates (df_filtered (Some "All India") df_master).
Proof.
  intros _ Hno.
  assert (E : pd.wrap64
                (sum_over (fun o => total_enrol (df_filtered o df_master))
                   (pd.unique (map (@Master.state _) df_master)))
              = pd.wrap64
                  (sum_Count_where
                     (fun r => Type_is "Enrolment" r
                               && notna (Master.state r)) df_master)).
  { rewrite <- (state_views_total (Type_is "Enrolment") df_master Hno).
    f_equal. apply sum_over_ext. intros o _. apply total_enrol_where. }
  assert (U : pd.wrap64
                (sum_over (fun o => total_updates (df_filtered o df_master))
                   (pd.unique (map (@Master.state _) df_master)))
              = pd.wrap64
                  (sum_Count_where
                     (fun r => Type_is_not "Enrolment" r
                               && notna (Master.state r)) df_master)).
  { rewrite <- (state_views_total (Type_is_not "Enrolment") df_master Hno).
    f_equal. apply sum_over_ext. intros o _. apply total_updates_where. }
  assert (All : df_filtered (Some "All India") df_master = df_master)
    by reflexivity.
  split; [exact E|]. split; [exact U|]. rewrite All. split.
  - rewrite <- wrap64_add_l, E, wrap64_add_l, sum_Count_where_by_state.
    symmetry. apply total_enrol_where.
  - rewrite <- wrap64_add_l, U, wrap64_add_l, sum_Count_where_by_state.
    symmetry. apply total_updates_where.
Qed.

(** ** The outcomes of loading the forecast table *)

(** X2. Loading the forecast table raises FileNotFoundError exactly when the
    file is missing, and the KeyError of ['date'] exactly when the file is
    there and has neither date column. *)
Theorem load_forecast_data_file_and_column_errors (fs : Files num) :
  (load_forecast_data parse_datetime fs
   = inl (FileNotFoundError "forecast_data.csv")
   <-> forecast_data_csv fs = None)
  /\ (load_forecast_data parse_datetime fs = inl (KeyError "date")
      <-> exists df, forecast_data_csv fs = Some df
                     /\ has_date_column df = false).
Proof.
  rewrite load_forecast_data_eq.
  destruct (forecast_data_csv fs) as [df|].
  - destruct (has_date_column df) eqn:Hc.
    + destruct (pd.to_datetime parse_datetime
                  (map (first_non_null df) (Forecast.rows df)))
        as [e|dates] eqn:Et.
      * apply to_datetime_raised in Et. destruct Et as [-> _].
        split; [split; discriminate|].
        split; [discriminate|].
        intros (df' & E & H). inversion E; subst. congruence.
      * split; [split; discriminate|].
        split; [discriminate|].
        intros (df' & E & H). inversion E; subst. congruence.
    + split; [split; discriminate|].
      split; [intros _; eauto|reflexivity].
  - split; [split; reflexivity|].
    split; [discriminate|intros (df & E & _); discriminate].
Qed.

(** ** What a run never does *)

(** X5. Whatever the files and the picks, the page starts with the page set-up,
    and the run never ends with a FileNotFoundError: a missing file is
    always recovered. *)
Theorem run_never_ends_with_FileNotFoundError (fs : Files num)
    (nav choice : nat) :
  (exists rest,
     fst (app datetime_compare parse_datetime fs nav choice [])
     = (header datetime num ++ rest)%list)
  /\ (forall path,
        snd (app datetime_compare parse_datetime fs nav choice [])
        <> inl (FileNotFoundError path)).
Proof.
  rewrite app_run, load_run.
  destruct (load_master_data parse_datetime fs) as [[p|k|m|t]|df_master] eqn:Em.
  - split; [eexists; reflexivity|]. intros path; discriminate.
  - split; [exists []; symmetry; apply app_nil_r|]. intros path; discriminate.
  - split; [exists []; symmetry; apply app_nil_r|]. intros path; discriminate.
  - split; [exists []; symmetry; apply app_nil_r|]. intros path; discriminate.
  - destruct (load_forecast_data parse_datetime fs)
      as [[p|k|m|t]|df_forecast] eqn:Ef.
    + split; [eexists; reflexivity|]. intros path; discriminate.
    + split; [exists []; symmetry; apply app_nil_r|].
      intros path; discriminate.
    + split; [exists []; symmetry; apply app_nil_r|].
      intros path; discriminate.
    + split; [exists []; symmetry; apply app_nil_r|].
      intros path; discriminate.
    + cbv zeta.
      set (view := df_filtered
                     (picked (state_options df_master) choice
                        (Some "All India")) df_master).
      pose proof (picked_pages nav) as Hp.
      remember (picked pages nav "1. Executive Summary") as page eqn:Epage.
      clear Epage. unfold pages in Hp. simpl in Hp.
      destruct Hp as [<-|[<-|[<-|[<-|[]]]]];
        cbn [String.eqb Ascii.eqb Bool.eqb].
      * rewrite executive_summary_run.
        destruct (top_district_cases view)
          as [[_ Hraise]|(d & Hd & _)].
        -- rewrite Hraise. split; [|intros path; discriminate].
           cbn [fst]. rewrite <- app_assoc. eexists; reflexivity.
        -- rewrite Hd. split; [|intros path; discriminate].
           cbn [fst]. rewrite <- app_assoc. eexists; reflexivity.
      * rewrite demographics_run. split; [|intros path; discriminate].
        cbn [fst]. rewrite <- app_assoc. eexists; reflexivity.
      * rewrite migration_tracker_run.
        destruct (Count_dtype df_master); cbn [pd.nlargest_check];
          (split; [|intros path; discriminate]);
          cbn [fst]; rewrite <- app_assoc; eexists; reflexivity.
      * rewrite ai_forecast_run. split; [|intros path; discriminate].
        cbn [fst]. rewrite <- app_assoc. eexists; reflexivity.
Qed.

(** ** Migration Tracker with few districts *)

(** X16. On a view of a master table that has at least one row and whose Count
    column is int64: when the Update_Demographic rows of the view name at
    most ten districts, the Migration Tracker charts every one of them with
    its sum, as int64 addition gives it, and the charted sums add up, in the
    arithmetic of int64, to the Count of the Update_Demographic rows that
    name a district. *)
Theorem few_districts_all_charted (df_master df : master)
    (selected_state : cell string) (page0 : list (element datetime num)) :
  df_master <> [] ->
  int64_Counts df_master ->
  df = df_filtered selected_state df_master ->
  (length (nodup string_dec (districts (demo_data df))) <= 10)%nat ->
  migration_tracker (Count_dtype df_master) df page0
  = ((page0 ++
      [ title "🚚 Migration & Address Updates";
        subheader "Hotspots for Demographic Updates";
        plotly_chart
          (px_bar_h (top_districts (demo_data df)) "Count" "district"
             "Top 10 Districts for Demographic Updates" "Count" "Viridis");
        markdown "High volume in specific districts often correlates with **urban migration hubs** or **marriage migration**." ])%list,
     inr tt)
  /\ (forall d, In d (districts (demo_data df)) ->
                In (d, pd.wrap64 (district_total d (demo_data df)))
                   (top_districts (demo_data df)))
  /\ pd.wrap64 (sum_values (top_districts (demo_data df)))
     = pd.wrap64
         (sum_Count_where
            (fun r => Type_is "Update_Demographic" r
                      && notna (Master.district r)) df).
Proof.
  intros Hrows _ _ Hlen.
  split.
  { rewrite migration_tracker_run, (Count_dtype_numeric Hrows).
    reflexivity. }
  set (groups := pd.groupby_sum String.compare (district_Count (demo_data df))).
  assert (Hkeys : NoDup (map fst groups)).
  { apply sorted_NoDup_keys with (compare := String.compare).
    - apply string_compare_eq_iff.
    - apply district_sums_sorted. }
  assert (Hl : length groups
               = length (nodup string_dec (districts (demo_data df)))).
  { rewrite <- (length_map fst groups).
    apply Permutation_length. apply NoDup_Permutation.
    - exact Hkeys.
    - apply NoDup_nodup.
    - intros d. rewrite nodup_In, in_map_iff. split.
      + intros ([d1 v] & E & Hin). simpl in E. subst d1.
        apply district_sums_In in Hin. apply Hin.
      + intros Hin.
        exists (d, pd.wrap64 (district_total d (demo_data df))).
        split; [reflexivity|]. apply district_sums_In. auto. }
  assert (Hall : top_districts (demo_data df) = pd.sort_desc groups).
  { unfold top_districts, pd.nlargest. fold groups. apply firstn_all2.
    rewrite (Permutation_length (sort_desc_perm groups)), Hl. exact Hlen. }
  rewrite Hall. split.
  - intros d Hd. eapply Permutation_in;
      [apply Permutation_sym, sort_desc_perm|].
    apply district_sums_In. auto.
  - assert (P : forall l l' : list (string * Z),
               Permutation l l' -> sum_values l = sum_values l').
    { induction 1; simpl; lia. }
    rewrite (P _ _ (sort_desc_perm groups)). unfold groups.
    rewrite groupby_sum_sum_values. unfold district_Count.
    rewrite (keyed_total_keyed (@Master.district datetime) (demo_data df)).
    unfold demo_data. rewrite sum_Count_where_filter.
    f_equal. apply sum_Count_where_ext. intros r.
    rewrite pd_eq_dec_agree. unfold Type_is. apply andb_comm.
Qed.

End MoreProperties.

(* ================================================================== *)
(** * The further properties on the examples *)
(* ================================================================== *)

(** The trend chart of a one-row table, dates ordered as calendar dates. *)
Lemma trend_data_points_on_example :
  (int64_Counts master_example)
  /\ (master_example = df_filtered (Some "All India") master_example)
  /\ (forall a b, ymd_compare a b = Eq <-> a = b)
  /\ (forall a b, ymd_compare b a = CompOpp (ymd_compare a b))
  /\ (forall a b c, ymd_compare a b = Lt -> ymd_compare b c = Lt ->
                 ymd_compare a c = Lt)
  /\ ((forall d t v,
     In ((d, t), v) (trend_data ymd_compare master_example)
     <-> (exists r, In r master_example /\ Master.date r = Some d
                    /\ Master.Type_ r = Some t)
         /\ v = pd.wrap64
                  (sum_Count_where
                     (fun r => date_is ymd_compare d r && Type_is t r)
                     master_example))
  /\ (forall d t v,
        In ((d, t), v) (trend_data ymd_compare master_example) ->
        in_int64 (sum_Count_where
                    (fun r => date_is ymd_compare d r && Type_is t r)
                    master_example) ->
        v = sum_Count_where
              (fun r => date_is ymd_compare d r && Type_is t r) master_example)
  /\ (forall d r, date_is ymd_compare d r = true
                  <-> Master.date r = Some d)
  /\ StronglySorted
       (key_lt (pd.compare_pair ymd_compare String.compare))
       (trend_data ymd_compare master_example)
  /\ NoDup (map fst (trend_data ymd_compare master_example))).
Proof.
  assert (H0 : int64_Counts master_example).
  { repeat constructor; eexists;
      (split; [reflexivity|unfold in_int64; lia]). }
  assert (H1 : master_example = df_filtered (Some "All India") master_example).
  { reflexivity. }
  assert (H2 : (forall a b, ymd_compare a b = Eq <-> a = b)).
  { exact ymd_compare_eq_iff. }
  assert (H3 : (forall a b, ymd_compare b a = CompOpp (ymd_compare a b))).
  { exact ymd_compare_antisym. }
  assert (H4 : (forall a b c, ymd_compare a b = Lt -> ymd_compare b c = Lt ->
                 ymd_compare a c = Lt)).
  { exact ymd_compare_trans. }
  split; [exact H0|].
  split; [exact H1|].
  split; [exact H2|].
  split; [exact H3|].
  split; [exact H4|].
  apply (@trend_data_points ymd ymd_compare master_example master_example
           (Some "All India")
           H0 H1 H2 H3 H4).
Defined.


(** A run with the forecast file missing. *)
Lemma missing_file_is_recovered_on_example :
  (master_uidai_data_cleaned_csv no_forecast_files = None
   \/ ((exists df_master : list (Master.row ymd),
          load_master_data iso_date no_forecast_files = inr df_master)
       /\ forecast_data_csv no_forecast_files = None))
  /\ app ymd_compare iso_date no_forecast_files 1 0 []
     = (waiting_page ymd Z, inr tt).
Proof.
  assert (H : master_uidai_data_cleaned_csv no_forecast_files = None
              \/ ((exists df_master : list (Master.row ymd),
                     load_master_data iso_date no_forecast_files
                     = inr df_master)
                  /\ forecast_data_csv no_forecast_files = None)).
  { right. split; [exists master_example; reflexivity|reflexivity]. }
  split; [exact H|].
  apply (@missing_file_is_recovered ymd ymd_compare iso_date Z
           no_forecast_files 1%nat 0%nat H).
Defined.

(** A run with a master date that does not parse and no forecast file. *)
Lemma bad_date_is_not_recovered_on_example :
  ((exists raw,
      master_uidai_data_cleaned_csv bad_date_files = Some raw
      /\ Exists (fun r => exists s, Master.date r = Some s
                                    /\ iso_date s = None) raw)
   \/ ((exists df_master : list (Master.row ymd),
          load_master_data iso_date bad_date_files = inr df_master)
       /\ exists df,
            forecast_data_csv bad_date_files = Some df
            /\ has_date_column df = true
            /\ Exists (fun raw => exists s, first_non_null df raw = Some s
                                            /\ iso_date s = None)
                 (Forecast.rows df)))
  /\ app ymd_compare iso_date bad_date_files 0 0 []
     = (header ymd Z, inl (ValueError "Unknown datetime string format")).
Proof.
  assert (H : (exists raw,
                 master_uidai_data_cleaned_csv bad_date_files = Some raw
                 /\ Exists (fun r => exists s, Master.date r = Some s
                                               /\ iso_date s = None) raw)
              \/ ((exists df_master : list (Master.row ymd),
                     load_master_data iso_date bad_date_files = inr df_master)
                  /\ exists df,
                       forecast_data_csv bad_date_files = Some df
                       /\ has_date_column df = true
                       /\ Exists (fun raw =>
                                    exists s, first_non_null df raw = Some s
                                              /\ iso_date s = None)
                            (Forecast.rows df))).
  { left. exists bad_date_master. split; [reflexivity|].
    apply Exists_cons_hd. exists "soon". split; reflexivity. }
  split; [exact H|].
  apply (@bad_date_is_not_recovered ymd ymd_compare iso_date Z
           bad_date_files 0%nat 0%nat H).
Defined.

(** "Goa" picked from the offers of the table of two states. *)
Lemma offered_state_has_rows_on_example :
  picked (state_options states_example) 1 (Some "All India") = Some "Goa"
  /\ "Goa" <> "All India"
  /\ (df_filtered (Some "Goa") states_example <> []
      /\ exists r, In r (df_filtered (Some "Goa") states_example)
                   /\ In r states_example /\ Master.state r = Some "Goa").
Proof.
  split; [reflexivity|]. split; [discriminate|].
  apply (@offered_state_has_rows ymd states_example 1%nat "Goa");
    [reflexivity|discriminate].
Defined.

(** The views of "Goa" in the migration table. *)
Lemma views_stay_in_selected_state_on_example :
  "Goa" <> "All India"
  /\ ((forall d,
         top_district (df_filtered (Some "Goa") migration_example) = inr d ->
         exists r, In r migration_example /\ Master.state r = Some "Goa"
                   /\ Master.district r = Some d)
      /\ (forall d c,
            In (d, c)
               (top_districts
                  (demo_data (df_filtered (Some "Goa") migration_example))) ->
            exists r, In r migration_example /\ Master.state r = Some "Goa"
                      /\ Master.Type_ r = Some "Update_Demographic"
                      /\ Master.district r = Some d)).
Proof.
  split; [discriminate|].
  apply (@views_stay_in_selected_state ymd migration_example "Goa").
  discriminate.
Defined.

(** The totals of the two state views of the table of two states. *)
Lemma state_views_add_up_on_example :
  (int64_Counts states_example)
  /\ (forall r, In r states_example -> Master.state r <> Some "All India")
  /\ (pd.wrap64
    (sum_over (fun o => total_enrol (df_filtered o states_example))
       (pd.unique (map (@Master.state _) states_example)))
  = pd.wrap64
      (sum_Count_where
         (fun r => Type_is "Enrolment" r && notna (Master.state r))
         states_example)
  /\ pd.wrap64
       (sum_over (fun o => total_updates (df_filtered o states_example))
          (pd.unique (map (@Master.state _) states_example)))
     = pd.wrap64
         (sum_Count_where
            (fun r => Type_is_not "Enrolment" r && notna (Master.state r))
            states_example)
  /\ pd.wrap64
       (sum_over (fun o => total_enrol (df_filtered o states_example))
          (pd.unique (map (@Master.state _) states_example))
        + sum_Count_where
            (fun r => Type_is "Enrolment" r && isna (Master.state r))
            states_example)
     = total_enrol (df_filtered (Some "All India") states_example)
  /\ pd.wrap64
       (sum_over (fun o => total_updates (df_filtered o states_example))
          (pd.unique (map (@Master.state _) states_example))
        + sum_Count_where
            (fun r => Type_is_not "Enrolment" r && isna (Master.state r))
            states_example)
     = total_updates (df_filtered (Some "All India") states_example)).
Proof.
  assert (H0 : int64_Counts states_example).
  { repeat constructor; eexists; (split; [reflexivity|unfold in_int64; lia]). }
  assert (H1 : (forall r, In r states_example -> Master.state r <> Some "All India")).
  { intros r [<-|[<-|[<-|[]]]]; discriminate. }
  split; [exact H0|].
  split; [exact H1|].
  apply (@state_views_add_up ymd states_example
           H0 H1).
Defined.

(** The chart of a table with two Update_Demographic districts. *)
Lemma few_districts_all_charted_on_example :
  (migration_example <> [])
  /\ (int64_Counts migration_example)
  /\ (migration_example = df_filtered (Some "All India") migration_example)
  /\ ((length (nodup string_dec (districts (demo_data migration_example))) <= 10)%nat)
  /\ (migration_tracker (Count_dtype migration_example) migration_example (@nil (element ymd Z))
  = (((@nil (element ymd Z)) ++
      [ title "🚚 Migration & Address Updates";
        subheader "Hotspots for Demographic Updates";
        plotly_chart
          (px_bar_h (top_districts (demo_data migration_example)) "Count" "district"
             "Top 10 Districts for Demographic Updates" "Count" "Viridis");
        markdown "High volume in specific districts often correlates with **urban migration hubs** or **marriage migration**." ])%list,
     inr tt)
  /\ (forall d, In d (districts (demo_data migration_example)) ->
                In (d, pd.wrap64 (district_total d (demo_data migration_example)))
                   (top_districts (demo_data migration_example)))
  /\ pd.wrap64 (sum_values (top_districts (demo_data migration_example)))
     = pd.wrap64
         (sum_Count_where
            (fun r => Type_is "Update_Demographic" r
                      && notna (Master.district r)) migration_example)).
Proof.
  assert (H0 : migration_example <> []).
  { discriminate. }
  assert (H1 : int64_Counts migration_example).
  { repeat constructor; eexists;
      (split; [reflexivity|unfold in_int64; lia]). }
  assert (H2 : migration_example = df_filtered (Some "All India") migration_example).
  { reflexivity. }
  assert (H3 : (length (nodup string_dec (districts (demo_data migration_example))) <= 10)%nat).
  { vm_compute. lia. }
  split; [exact H0|].
  split; [exact H1|].
  split; [exact H2|].
  split; [exact H3|].
  apply (@few_districts_all_charted ymd Z migration_example migration_example
           (Some "All India") []
           H0 H1 H2 H3).
Defined.

(** What the trend chart of a one-row table adds up to. *)
Lemma trend_data_adds_up_on_example :
  (int64_Counts master_example)
  /\ (master_example = df_filtered (Some "All India") master_example)
  /\ (pd.wrap64 (sum_values (trend_data ymd_compare master_example))
  = pd.wrap64
      (sum_Count_where
         (fun r => notna (Master.date r) && notna (Master.Type_ r)) master_example)
  /\ pd.wrap64
       (sum_values (trend_data ymd_compare master_example)
        + sum_Count_where
            (fun r => negb (notna (Master.date r) && notna (Master.Type_ r)))
            master_example)
     = pd.wrap64 (total_enrol master_example + total_updates master_example)).
Proof.
  assert (H0 : int64_Counts master_example).
  { repeat constructor; eexists;
      (split; [reflexivity|unfold in_int64; lia]). }
  assert (H1 : master_example = df_filtered (Some "All India") master_example).
  { reflexivity. }
  split; [exact H0|].
  split; [exact H1|].
  apply (@trend_data_adds_up ymd ymd_compare master_example master_example
           (Some "All India")
           H0 H1).
Defined.

(** The bars of the Demographics chart of a one-row table. *)
Lemma age_summary_bars_on_example :
  (int64_Counts master_example)
  /\ (master_example = df_filtered (Some "All India") master_example)
  /\ ((forall t a v,
     In ((t, a), v) (age_summary master_example)
     <-> (exists r, In r master_example /\ Master.Type_ r = Some t
                    /\ Master.Age_Group r = Some a)
         /\ v = pd.wrap64
                  (sum_Count_where
                     (fun r => Type_is t r && Age_Group_is a r) master_example))
  /\ (forall t a v,
        In ((t, a), v) (age_summary master_example) ->
        in_int64 (sum_Count_where
                    (fun r => Type_is t r && Age_Group_is a r) master_example) ->
        v = sum_Count_where (fun r => Type_is t r && Age_Group_is a r) master_example)
  /\ StronglySorted
       (key_lt (pd.compare_pair String.compare String.compare))
       (age_summary master_example)
  /\ NoDup (map fst (age_summary master_example))
  /\ pd.wrap64 (sum_values (age_summary master_example))
     = pd.wrap64
         (sum_Count_where
            (fun r => notna (Master.Type_ r) && notna (Master.Age_Group r))
            master_example)).
Proof.
  assert (H0 : int64_Counts master_example).
  { repeat constructor; eexists;
      (split; [reflexivity|unfold in_int64; lia]). }
  assert (H1 : master_example = df_filtered (Some "All India") master_example).
  { reflexivity. }
  split; [exact H0|].
  split; [exact H1|].
  apply (@age_summary_bars ymd master_example master_example (Some "All India")
           H0 H1).
Defined.

(** The top district of the table of two states, all states selected. *)
Lemma top_district_characterized_on_example :
  (int64_Counts states_example)
  /\ (states_example = df_filtered (Some "All India") states_example)
  /\ ((top_district states_example
   = inl (ValueError "attempt to get argmax of an empty sequence")
   <-> districts states_example = [])
  /\ (forall e, top_district states_example = inl e ->
        e = ValueError "attempt to get argmax of an empty sequence")
  /\ (forall d,
        top_district states_example = inr d
        <-> In d (districts states_example)
            /\ (forall d', In d' (districts states_example) ->
                           pd.wrap64 (district_total d' states_example)
                           <= pd.wrap64 (district_total d states_example))
            /\ (forall d', In d' (districts states_example) ->
                           pd.wrap64 (district_total d' states_example)
                           = pd.wrap64 (district_total d states_example) ->
                           String.leb d d' = true))).
Proof.
  assert (H0 : int64_Counts states_example).
  { repeat constructor; eexists;
      (split; [reflexivity|unfold in_int64; lia]). }
  assert (H1 : states_example = df_filtered (Some "All India") states_example).
  { reflexivity. }
  split; [exact H0|].
  split; [exact H1|].
  apply (@top_district_characterized ymd states_example states_example
           (Some "All India")
           H0 H1).
Defined.
